(** * Prescription-Extractor: the medicine-record parser of [app.py]

    A shallow embedding of [is_likely_phone_number] and
    [parse_medicine_details] together with the part of Python's [str] and
    [re] they rely on, and the properties of the parser stated over it.

    Text is a list of 8-bit characters: a value of [text] stands for the
    Python [str] with the same code points (0..255).  The character
    classes ([str.isspace], [\d], [\w], [str.lower]) are the ones Python
    uses on that range. *)

From Stdlib Require Import List Ascii Bool Arith NArith Lia.
From Stdlib Require String.
Import ListNotations String.StringSyntax.

Local Open Scope string_scope.
Local Open Scope list_scope.

(* ================================================================== *)
(** ** Python strings *)
(* ================================================================== *)

Definition text := list ascii.

Definition lit (s : String.string) : text := String.list_ascii_of_string s.
Coercion lit : String.string >-> text.

Module Py.

Definition code (c : ascii) : N := N_of_ascii c.

Definition between (lo hi c : ascii) : bool :=
  (code lo <=? code c)%N && (code c <=? code hi)%N.

(** [str.isspace] on one character, which is also [\s] of [re] and the
    set [str.strip] removes: TAB..CR, FS..US, space, NEL and NBSP. *)
Definition isspace (c : ascii) : bool :=
  between "009" "013" c || between "028" "032" c
  || (code c =? 133)%N || (code c =? 160)%N.

(** [\d] of [re]: the decimal digits. *)
Definition isdecimal (c : ascii) : bool := between "0" "9" c.

Definition isupper_az (c : ascii) : bool := between "A" "Z" c.
Definition islower_az (c : ascii) : bool := between "a" "z" c.

(** [\w] of [re] on a [str] pattern: alphanumeric or underscore. *)
Definition isword (c : ascii) : bool :=
  isdecimal c || isupper_az c || islower_az c || Ascii.eqb c "_"
  || (code c =? 170)%N || (code c =? 178)%N || (code c =? 179)%N
  || (code c =? 181)%N || (code c =? 185)%N || (code c =? 186)%N
  || ((188 <=? code c)%N && (code c <=? 190)%N)
  || ((192 <=? code c)%N && (code c <=? 214)%N)
  || ((216 <=? code c)%N && (code c <=? 246)%N)
  || ((248 <=? code c)%N && (code c <=? 255)%N).

(** [str.lower] on one character. *)
Definition lower_char (c : ascii) : ascii :=
  if isupper_az c
     || ((192 <=? code c)%N && (code c <=? 222)%N && negb (code c =? 215)%N)
  then ascii_of_N (code c + 32) else c.

Definition lower (s : text) : text := map lower_char s.

Fixpoint lstrip (s : text) : text :=
  match s with
  | c :: t => if isspace c then lstrip t else s
  | [] => []
  end.

Definition rstrip (s : text) : text := rev (lstrip (rev s)).

(** [s.strip()] *)
Definition strip (s : text) : text := rstrip (lstrip s).

(** [s.startswith(p)] *)
Fixpoint startswith (p s : text) : bool :=
  match p, s with
  | [], _ => true
  | a :: p', b :: s' => Ascii.eqb a b && startswith p' s'
  | _ :: _, [] => false
  end.

(** [s.endswith(p)] *)
Definition endswith (p s : text) : bool := startswith (rev p) (rev s).

(** [sub in s] *)
Fixpoint contains (sub s : text) : bool :=
  startswith sub s ||
  match s with
  | [] => false
  | _ :: t => contains sub t
  end.

(** [s.split(sep)] for a one-character separator: never the empty
    list, [''.split(sep)] is [['']]. *)
Fixpoint split (sep : ascii) (s : text) : list text :=
  match s with
  | [] => [[]]
  | c :: t =>
      if Ascii.eqb c sep then [] :: split sep t
      else match split sep t with
           | h :: r => (c :: h) :: r
           | [] => [[c]]
           end
  end.

(** Truth value of a [str]: non-empty. *)
Definition truthy (s : text) : bool :=
  match s with [] => false | _ :: _ => true end.

(** Truth value of a value that is a [str] or [None]. *)
Definition truthy_opt (o : option text) : bool :=
  match o with Some s => truthy s | None => false end.

(** What an f-string prints for a value that is a [str] or [None]. *)
Definition fstr (o : option text) : text :=
  match o with Some s => s | None => "None" end.

End Py.

(* ================================================================== *)
(** ** Python's [re]: a backtracking matcher *)
(* ================================================================== *)

Module Re.

(** The constructs the patterns of [app.py] use.  A repetition is always
    over a single character class there ([\d+], [\s*], [\d{1,3}],
    [[...]+]); an optional part [r?] may hold any pattern.  Groups are
    not numbered in the syntax: as in [re], a group's number is the rank
    of its opening parenthesis. *)
Inductive regex : Type :=
| Eps                                          (* the empty pattern *)
| Chr (c : ascii)                              (* a literal character *)
| Cls (p : ascii -> bool)                      (* a class: \d, \s, [...] *)
| Seq (r1 r2 : regex)                          (* r1 r2 *)
| Alt (r1 r2 : regex)                          (* r1|r2 *)
| Opt (r : regex)                              (* r? *)
| Rep (lo : nat) (hi : option nat) (p : ascii -> bool) (* p{lo,hi}, greedy *)
| Grp (r : regex)                              (* (r) *)
| WordB                                        (* \b *)
| Bol                                          (* ^ *)
| Eol.                                         (* $ *)

(** A literal word, character by character. *)
Fixpoint word (s : text) : regex :=
  match s with
  | [] => Eps
  | [c] => Chr c
  | c :: t => Seq (Chr c) (word t)
  end.

(** [w1|w2|...|wn] over literal words, as ["|".join(words)] builds it. *)
Fixpoint alts (ws : list text) : regex :=
  match ws with
  | [] => Eps
  | [w] => word w
  | w :: t => Alt (word w) (alts t)
  end.

Definition star (p : ascii -> bool) : regex := Rep 0 None p.
Definition plus (p : ascii -> bool) : regex := Rep 1 None p.
Definition exactly (n : nat) (p : ascii -> bool) : regex := Rep n (Some n) p.

(** Number of groups of a pattern. *)
Fixpoint ngroups (r : regex) : nat :=
  match r with
  | Seq r1 r2 | Alt r1 r2 => ngroups r1 + ngroups r2
  | Opt r1 => ngroups r1
  | Grp r1 => S (ngroups r1)
  | _ => 0
  end.

(** A position in the subject: the character before it (for [\b] and
    [^]), the rest of the subject, and the groups captured so far (the
    latest binding of a number first). *)
Record mstate : Type := MState {
  prev : option ascii;
  rest : text;
  caps : list (nat * text)
}.

Definition is_word_opt (o : option ascii) : bool :=
  match o with Some c => Py.isword c | None => false end.

(** [\b]: exactly one of the two neighbours is a word character. *)
Definition at_boundary (s : mstate) : bool :=
  xorb (is_word_opt (prev s)) (is_word_opt (hd_error (rest s))).

(** The text between two positions of one subject. *)
Definition consumed (s s' : mstate) : text :=
  firstn (length (rest s) - length (rest s')) (rest s).

Definition chr_eq (ic : bool) (c x : ascii) : bool :=
  if ic then Ascii.eqb (Py.lower_char c) (Py.lower_char x) else Ascii.eqb c x.

Definition step1 (p : ascii -> bool) (s : mstate) : list mstate :=
  match rest s with
  | x :: t => if p x then [MState (Some x) t (caps s)] else []
  | [] => []
  end.

(** The positions reached by taking 0, 1, 2, ... characters of class
    [p], at most [hi] of them. *)
Fixpoint spans (p : ascii -> bool) (hi : option nat)
         (pv : option ascii) (r : text) : list (option ascii * text) :=
  (pv, r) ::
  match r with
  | x :: t =>
      if p x then
        match hi with
        | None => spans p None (Some x) t
        | Some (S k) => spans p (Some k) (Some x) t
        | Some 0 => []
        end
      else []
  | [] => []
  end.

(** All ways of matching [r] from position [s], in the order a
    backtracking matcher tries them (greedy repetitions take the most
    first, [r1|r2] tries [r1] first, [r?] tries [r] first).  [n] is the
    number of the next group to open; [ic] is the IGNORECASE flag, which
    acts on literal characters (the classes of the patterns compiled
    with it, [\d] and [\s], are closed under case). *)
Fixpoint run (ic : bool) (r : regex) (n : nat) (s : mstate) : list mstate :=
  match r with
  | Eps => [s]
  | Chr c => step1 (chr_eq ic c) s
  | Cls p => step1 p s
  | Seq r1 r2 => flat_map (run ic r2 (n + ngroups r1)) (run ic r1 n s)
  | Alt r1 r2 => run ic r1 n s ++ run ic r2 (n + ngroups r1) s
  | Opt r1 => run ic r1 n s ++ [s]
  | Rep lo hi p =>
      map (fun '(pv, r) => MState pv r (caps s))
          (rev (skipn lo (spans p hi (prev s) (rest s))))
  | Grp r1 =>
      map (fun s' => MState (prev s') (rest s') ((n, consumed s s') :: caps s'))
          (run ic r1 (S n) s)
  | WordB => if at_boundary s then [s] else []
  | Bol => match prev s with None => [s] | Some _ => [] end
  | Eol => match rest s with
           | [] => [s]
           | [x] => if Ascii.eqb x "010" then [s] else []
           | _ => []
           end
  end.

(** The match a backtracking matcher finds from a position: the first. *)
Definition match_at (ic : bool) (r : regex) (pv : option ascii) (t : text)
  : option mstate :=
  hd_error (run ic r 1 (MState pv t [])).

(** [re.match(r, s)] *)
Definition re_match (ic : bool) (r : regex) (s : text) : option mstate :=
  match_at ic r None s.

Fixpoint search_from (ic : bool) (r : regex) (pv : option ascii) (t : text)
  : option mstate :=
  match match_at ic r pv t with
  | Some m => Some m
  | None =>
      match t with
      | [] => None
      | x :: t' => search_from ic r (Some x) t'
      end
  end.

(** [re.search(r, s)]: the match at the leftmost position that has one. *)
Definition re_search (ic : bool) (r : regex) (s : text) : option mstate :=
  search_from ic r None s.

(** [m.group(k)] for [k >= 1]: [None] when the group took no part. *)
Fixpoint lookup (k : nat) (cs : list (nat * text)) : option text :=
  match cs with
  | [] => None
  | (j, v) :: cs' => if Nat.eqb j k then Some v else lookup k cs'
  end.

Definition group (m : mstate) (k : nat) : option text := lookup k (caps m).

(** [re.sub(r, '', s)]: every non-overlapping match, leftmost first, is
    deleted.  [skip] counts the characters of the current match that are
    still to be dropped. *)
Fixpoint sub_del (ic : bool) (r : regex) (pv : option ascii) (t : text)
         (skip : nat) : text :=
  match t with
  | [] => []
  | x :: t' =>
      match skip with
      | S k => sub_del ic r (Some x) t' k
      | 0 =>
          match match_at ic r pv t with
          | Some m =>
              match length t - length (rest m) with
              | S k => sub_del ic r (Some x) t' k
              | 0 => x :: sub_del ic r (Some x) t' 0
              end
          | None => x :: sub_del ic r (Some x) t' 0
          end
      end
  end.

Definition re_sub_del (ic : bool) (r : regex) (s : text) : text :=
  sub_del ic r None s 0.

(** The character before the position reached by reading [w] from a
    position whose previous character is [pv]. *)
Definition lastc (pv : option ascii) (w : text) : option ascii :=
  fold_left (fun _ c => Some c) w pv.

(** Position [m] is position [s] moved forward over [w]. *)
Definition span (s m : mstate) (w : text) : Prop :=
  rest s = w ++ rest m /\ prev m = lastc (prev s) w.

(** A count allowed by the upper bound of a repetition. *)
Definition within (hi : option nat) (k : nat) : Prop :=
  match hi with None => True | Some h => k <= h end.

End Re.

(* ================================================================== *)
(** ** The parser of [app.py] *)
(* ================================================================== *)

Import Re.

Declare Scope regex_scope.
Delimit Scope regex_scope with re.
Bind Scope regex_scope with regex.
Notation "r1 ;; r2" := (Seq r1 r2) (at level 61, right associativity) : regex_scope.
Notation "r1 || r2" := (Alt r1 r2) : regex_scope.

(** Exceptions the parser can end in. *)
Inductive exn : Type := TypeError | AttributeError.

Inductive outcome (A : Type) : Type :=
| Ok (a : A)
| Raise (e : exn).
Arguments Ok {A} a.
Arguments Raise {A} e.

Definition bind {A B : Type} (o : outcome A) (k : A -> outcome B) : outcome B :=
  match o with
  | Ok a => k a
  | Raise e => Raise e
  end.

Notation "'let*' x ':=' e 'in' k" := (bind e (fun x => k))
  (at level 10, x pattern, e at level 100, k at level 200).

(** The dictionaries [{"name": ..., "dosage": ..., "frequency": ...}]. *)
Record MedicineRecord : Type := mkRecord {
  name : text;
  dosage : text;
  frequency : text
}.

Definition nl : ascii := "010".

(** [a + b] on [str]. *)
Definition cat (a b : text) : text := a ++ b.
Infix "+++" := cat (at level 60, right associativity).

(** *** [is_likely_phone_number] *)

(** [[-.\s]] *)
Definition is_sep (c : ascii) : bool :=
  Ascii.eqb c "-" || Ascii.eqb c "." || Py.isspace c.

(** [(\+?\d{1,3}[-.\s]?)?\(?\d{3}\)?[-.\s]?\d{3}[-.\s]?\d{4}\b] *)
Definition phone_pattern : regex :=
  (Opt (Grp (Opt (Chr "+") ;; Rep 1 (Some 3) Py.isdecimal ;; Opt (Cls is_sep))) ;;
   Opt (Chr "(") ;; exactly 3 Py.isdecimal ;; Opt (Chr ")") ;;
   Opt (Cls is_sep) ;; exactly 3 Py.isdecimal ;;
   Opt (Cls is_sep) ;; exactly 4 Py.isdecimal ;; WordB)%re.

Definition is_some {A : Type} (o : option A) : bool :=
  match o with Some _ => true | None => false end.

Definition is_likely_phone_number (t : text) : bool :=
  is_some (re_search false phone_pattern t).

(** *** [parse_medicine_details] *)

Definition dosage_keywords : list text :=
  [ lit "mg"; lit "ml"; lit "g"; lit "mcg"; lit "tablet"; lit "capsule";
    lit "spoon"; lit "drops"; lit "puff" ].

Definition frequency_keywords : list text :=
  [ lit "daily"; lit "once a day"; lit "twice a day"; lit "thrice a day";
    lit "times a day"; lit "bd"; lit "tds"; lit "qid"; lit "od"; lit "hs";
    lit "sos"; lit "prn"; lit "before food"; lit "after food"; lit "morning";
    lit "noon"; lit "evening"; lit "night"; lit "alternate day"; lit "weekly" ].

(** [\b\d+(\.\d+)?\b]: it has a group of its own. *)
Definition number_pattern : regex :=
  (WordB ;; plus Py.isdecimal ;; Opt (Grp (Chr "." ;; plus Py.isdecimal)) ;; WordB)%re.

(** [[a-zA-Z0-9\s\-\.!]] *)
Definition is_name_char (c : ascii) : bool :=
  Py.islower_az c || Py.isupper_az c || Py.isdecimal c || Py.isspace c
  || Ascii.eqb c "-" || Ascii.eqb c "." || Ascii.eqb c "!".

(** [^[A-Z][a-zA-Z0-9\s\-\.!]+$] *)
Definition name_pattern : regex :=
  (Bol ;; Cls Py.isupper_az ;; plus is_name_char ;; Eol)%re.

(** [[!@#\$%\^&\*\(\)]] *)
Definition is_noise (c : ascii) : bool :=
  existsb (Ascii.eqb c) (lit "!@#$%^&*()").

(** [\s*\d+(\.\d+)?\s*{unit}\b] *)
Definition unit_pattern (unit : text) : regex :=
  (star Py.isspace ;; plus Py.isdecimal ;; Opt (Grp (Chr "." ;; plus Py.isdecimal)) ;;
   star Py.isspace ;; word unit ;; WordB)%re.

(** [({number_pattern})\s*(mg|ml|...)\b|\b(mg|ml|...)\s*({number_pattern})] *)
Definition dosage_pattern : regex :=
  ((Grp number_pattern ;; star Py.isspace ;; Grp (alts dosage_keywords) ;; WordB)
   || (WordB ;; Grp (alts dosage_keywords) ;; star Py.isspace ;; Grp number_pattern))%re.

(** [({number_pattern})\s*(tablet|cap)?] *)
Definition num_only_pattern : regex :=
  (Grp number_pattern ;; star Py.isspace ;; Opt (Grp (word "tablet" || word "cap")))%re.

(** [\b(\d+)\s*-\s*(\d+)\s*-\s*(\d+)\b] *)
Definition xyz_pattern : regex :=
  (WordB ;; Grp (plus Py.isdecimal) ;; star Py.isspace ;; Chr "-" ;; star Py.isspace ;;
   Grp (plus Py.isdecimal) ;; star Py.isspace ;; Chr "-" ;; star Py.isspace ;;
   Grp (plus Py.isdecimal) ;; WordB)%re.

(** [({number_pattern})\s*({kw}|times\s*(a)?\s*day)] *)
Definition freq_num_pattern (kw : text) : regex :=
  (Grp number_pattern ;; star Py.isspace ;;
   Grp (word kw || (word "times" ;; star Py.isspace ;; Opt (Grp (Chr "a")) ;;
                    star Py.isspace ;; word "day")))%re.

(** Lines 86: the test that makes a line a name line. *)
Definition is_name_line (line line_lower : text) : bool :=
  is_some (re_match false name_pattern line)
  && negb (existsb (fun freq => Py.contains freq line_lower) frequency_keywords).

(** Lines 88-91: the loop over the units, left at the first unit the name
    ends with. *)
Fixpoint strip_unit (units : list text) (current : text) : text :=
  match units with
  | [] => current
  | unit :: units' =>
      if Py.endswith (" " +++ unit) (Py.lower current)
      then Py.strip (re_sub_del true (unit_pattern unit) current)
      else strip_unit units' current
  end.

(** Lines 87-91: the name a name line leaves pending. *)
Definition derive_name (line : text) : text :=
  strip_unit dosage_keywords (Py.strip (re_sub_del false (Cls is_noise) line)).

(** [dosage += suffix], where [dosage] is a [str] or [None]. *)
Definition add_suffix (dosage : option text) (suffix : text) : outcome (option text) :=
  match dosage with
  | Some d => Ok (Some (d +++ suffix))
  | None => Raise TypeError
  end.

(** Lines 94-113.  The value is a [str] or [None], as [group(1)] is. *)
Definition extract_dosage (current : option text) (line_lower : text)
  : outcome (option text) :=
  match re_search true dosage_pattern line_lower with
  | Some m =>
      if Py.truthy_opt (group m 1) && Py.truthy_opt (group m 2)
      then Ok (Some (Py.fstr (group m 1) +++ " " +++ Py.fstr (group m 2)))
      else if Py.truthy_opt (group m 3) && Py.truthy_opt (group m 4)
      then Ok (Some (Py.fstr (group m 4) +++ " " +++ Py.fstr (group m 3)))
      else Ok (Some (lit "Not specified"))
  | None =>
      match re_search false num_only_pattern line_lower with
      | Some m =>
          if Py.truthy_opt current || Py.contains "tablet" line_lower
             || Py.contains "cap" line_lower
          then
            if Py.contains "tablet" line_lower then add_suffix (group m 1) " tablet(s)"
            else if Py.contains "cap" line_lower then add_suffix (group m 1) " capsule(s)"
            else Ok (group m 1)
          else Ok (Some (lit "Not specified"))
      | None => Ok (Some (lit "Not specified"))
      end
  end.

(** ["times" in g], where [g] is a [str] or [None]. *)
Definition times_in (g : option text) : outcome bool :=
  match g with
  | Some t => Ok (Py.contains "times" t)
  | None => Raise TypeError
  end.

(** Lines 119-125: the loop over the frequency keywords; [frequency] is
    the value the variable has on entry. *)
Fixpoint scan_frequency (kws : list text) (line_lower frequency : text)
  : outcome text :=
  match kws with
  | [] => Ok frequency
  | kw :: kws' =>
      match re_search true (freq_num_pattern kw) line_lower with
      | Some m =>
          let* has_times := times_in (group m 2) in
          if has_times
          then scan_frequency kws' line_lower
                 (Py.fstr (group m 1) +++ " " +++ Py.fstr (group m 2))
          else if Py.contains kw line_lower then Ok kw
          else scan_frequency kws' line_lower frequency
      | None =>
          if Py.contains kw line_lower then Ok kw
          else scan_frequency kws' line_lower frequency
      end
  end.

(** Lines 95 and 115-125. *)
Definition extract_frequency (line_lower : text) : outcome text :=
  match re_search false xyz_pattern line_lower with
  | Some m =>
      Ok ("Morning: " +++ Py.fstr (group m 1) +++ ", Afternoon: "
          +++ Py.fstr (group m 2) +++ ", Night: " +++ Py.fstr (group m 3))
  | None => scan_frequency frequency_keywords line_lower "Not specified"
  end.

(** [dosage.strip()], where [dosage] is a [str] or [None]. *)
Definition strip_opt (o : option text) : outcome text :=
  match o with
  | Some t => Ok (Py.strip t)
  | None => Raise AttributeError
  end.

(** The variables the loop carries: [current_medicine_name] and
    [medicines]. *)
Definition loop_state : Type := (option text * list MedicineRecord)%type.

(** Lines 127-133. *)
Definition emit (st : loop_state) (dosage : option text) (frequency : text)
  : outcome loop_state :=
  match fst st with
  | Some current =>
      if Py.truthy current then
        let* d := strip_opt dosage in
        Ok (None, snd st ++ [mkRecord (Py.strip current) d (Py.strip frequency)])
      else Ok st
  | None => Ok st
  end.

(** Lines 94-133: what is done with a line that is not a name line. *)
Definition detail_line (st : loop_state) (line_lower : text) : outcome loop_state :=
  let* dosage := extract_dosage (fst st) line_lower in
  let* frequency := extract_frequency line_lower in
  emit st dosage frequency.

(** Lines 77-133: one turn of the loop. *)
Definition process_line (st : loop_state) (raw : text) : outcome loop_state :=
  let line := Py.strip raw in
  let line_lower := Py.lower line in
  if negb (Py.truthy line) then Ok st
  else if is_likely_phone_number line then Ok st
  else if is_name_line line line_lower then Ok (Some (derive_name line), snd st)
  else detail_line st line_lower.

Fixpoint loop (st : loop_state) (lines : list text) : outcome loop_state :=
  match lines with
  | [] => Ok st
  | raw :: lines' => let* st' := process_line st raw in loop st' lines'
  end.

Definition sentinel : MedicineRecord :=
  mkRecord "Could not parse medicine details" "" "".

Definition parse_medicine_details (t : text) : outcome (list MedicineRecord) :=
  let* st := loop (None, []) (Py.split nl t) in
  match snd st with
  | [] => if Py.truthy (Py.strip t) then Ok [sentinel] else Ok []
  | _ :: _ => Ok (snd st)
  end.

(** The lines of a text, joined by line feeds. *)
Fixpoint unlines (ls : list text) : text :=
  match ls with
  | [] => []
  | [l] => l
  | l :: ls' => l ++ nl :: unlines ls'
  end.

(** *** The loop read as a state machine *)

(** The four things the loop body can do with a line, by the tests of
    lines 79, 82 and 86 in their order. *)
Inductive line_kind : Type :=
| Blank
| Phone
| NameLine (current : text)
| DetailLine (line_lower : text).

Definition classify (raw : text) : line_kind :=
  let line := Py.strip raw in
  let line_lower := Py.lower line in
  if negb (Py.truthy line) then Blank
  else if is_likely_phone_number line then Phone
  else if is_name_line line line_lower then NameLine (derive_name line)
  else DetailLine line_lower.

(** The record assembler as the specification words it: two states, a
    name line sets the pending name, a detail line met with a pending name
    is paired with it, everything else is passed over, and a name still
    pending at the end is dropped.  The result lists the pairs (pending
    name, detail line) in the order they are made. *)
Inductive asm_state : Type :=
| AwaitingName
| HaveName (pending : text).

Fixpoint assemble (s : asm_state) (ks : list line_kind) : list (text * text) :=
  match ks with
  | [] => []
  | Blank :: ks' | Phone :: ks' => assemble s ks'
  | NameLine n :: ks' => assemble (HaveName n) ks'
  | DetailLine d :: ks' =>
      match s with
      | HaveName n => (n, d) :: assemble AwaitingName ks'
      | AwaitingName => assemble AwaitingName ks'
      end
  end.

(** The record made of a pending name and a detail line. *)
Definition record_of (r : MedicineRecord) (p : text * text) : Prop :=
  name r = fst p /\
  exists d f,
    extract_dosage (Some (fst p)) (snd p) = Ok (Some d) /\
    extract_frequency (snd p) = Ok f /\
    dosage r = Py.strip d /\ frequency r = Py.strip f.

(** *** Shapes of text, stated without the matcher *)

Definition digits (w : text) : Prop := forallb Py.isdecimal w = true.
Definition spaces (w : text) : Prop := forallb Py.isspace w = true.

(** Nothing, or one character of a class. *)
Definition opt_one (p : ascii -> bool) (w : text) : Prop :=
  w = [] \/ exists c, w = [c] /\ p c = true.

(** The character after a piece of text is not a word character (or there
    is none), so that a piece ending in a digit ends at a word boundary. *)
Definition ends_word (post : text) : Prop :=
  is_word_opt (hd_error post) = false.

(** The character before a piece of text is not a word character (or there
    is none). *)
Definition starts_word (pre : text) : Prop :=
  is_word_opt (lastc None pre) = false.

(** Three groups of 3, 3 and 4 digits, the first possibly in parentheses,
    each gap holding at most one of hyphen, dot, white space. *)
Definition local_number (w : text) : Prop :=
  exists lp g1 rp s1 g2 s2 g3,
    w = lp ++ g1 ++ rp ++ s1 ++ g2 ++ s2 ++ g3 /\
    opt_one (Ascii.eqb "(") lp /\ digits g1 /\ length g1 = 3 /\
    opt_one (Ascii.eqb ")") rp /\ opt_one is_sep s1 /\
    digits g2 /\ length g2 = 3 /\ opt_one is_sep s2 /\
    digits g3 /\ length g3 = 4.

(** An optional ['+'], one to three digits and an optional separator. *)
Definition country_code (w : text) : Prop :=
  exists sign cc s0,
    w = sign ++ cc ++ s0 /\
    opt_one (Ascii.eqb "+") sign /\ digits cc /\
    1 <= length cc <= 3 /\ opt_one is_sep s0.

(** The phone-number shape of the specification. *)
Definition phone_shape (w : text) : Prop :=
  exists cc loc, w = cc ++ loc /\ (cc = [] \/ country_code cc) /\ local_number loc.

(** Three integers [a], [b], [c] in a line, with a hyphen (and possibly
    white space around it) between one and the next, [a] starting and [c]
    ending at a word boundary; [pre] is what the line has before [a]. *)
Definition triplet_at (l pre a b c : text) : Prop :=
  exists w1 w2 w3 w4 post,
    l = pre ++ a ++ w1 ++ "-"%char :: w2 ++ b ++ w3 ++ "-"%char :: w4 ++ c ++ post /\
    digits a /\ a <> [] /\ digits b /\ b <> [] /\ digits c /\ c <> [] /\
    spaces w1 /\ spaces w2 /\ spaces w3 /\ spaces w4 /\
    starts_word pre /\ ends_word post.

(** The characters a text of the phone-number shape is made of. *)
Definition is_phone_char (c : ascii) : bool :=
  Py.isdecimal c || is_sep c || existsb (Ascii.eqb c) (lit "+()").

(** A line holds a phone number: somewhere in it stands a piece of the
    phone-number shape whose last digit ends a word. *)
Definition has_phone (line : text) : Prop :=
  exists pre w post, line = pre ++ w ++ post /\ phone_shape w /\ ends_word post.

(** The same for the three digit groups alone. *)
Definition has_local_number (line : text) : Prop :=
  exists pre w post, line = pre ++ w ++ post /\ local_number w /\ ends_word post.

(** The assembler state that stands for a value of
    [current_medicine_name]. *)
Definition asm_of (current : option text) : asm_state :=
  match current with
  | Some n => HaveName n
  | None => AwaitingName
  end.

(** What the loop keeps true of [current_medicine_name]: it is [None] or
    a non-empty text that [strip] leaves as it is. *)
Definition good_pending (current : option text) : Prop :=
  match current with
  | Some n => n <> [] /\ Py.strip n = n
  | None => True
  end.

(** *** Notions used by the further properties *)

(** A text holds a decimal digit. *)
Definition has_digit (s : text) : Prop :=
  exists c, In c s /\ Py.isdecimal c = true.

(** Number of decimal digits of a text. *)
Definition count_digits (s : text) : nat := length (filter Py.isdecimal s).

(** The frequency made of a triplet. *)
Definition triplet_text (a b c : text) : text :=
  "Morning: " +++ a +++ ", Afternoon: " +++ b +++ ", Night: " +++ c.

(** The shape of a name line: an upper-case letter followed by one or
    more letters, digits, white space, hyphens, dots, exclamation marks. *)
Definition name_shape (line : text) : Prop :=
  exists x t, line = x :: t /\ Py.isupper_az x = true /\ t <> [] /\
              forallb is_name_char t = true.

(** No frequency keyword occurs in the line, whatever the case of its
    letters. *)
Definition keyword_free (line : text) : Prop :=
  forall kw, In kw frequency_keywords -> Py.contains kw (Py.lower line) = false.

(** A number as [number_pattern] reads it: digits, and possibly a dot and
    digits. *)
Definition number_text (num : text) : Prop :=
  exists ds, digits ds /\ ds <> [] /\
             (num = ds \/ exists fs, digits fs /\ fs <> [] /\ num = ds ++ "."%char :: fs).

(** The forms of a dosage. *)
Definition dosage_form (d : text) : Prop :=
  d = lit "Not specified" \/
  (exists num, number_text num /\
               (d = num \/ d = num +++ " tablet(s)" \/ d = num +++ " capsule(s)")) \/
  (exists ds fs, digits ds /\ ds <> [] /\ digits fs /\ fs <> [] /\
                 d = (ds ++ "."%char :: fs) +++ " " +++ ("."%char :: fs)).

(** The first, the last character of a text is not white space. *)
Definition first_ok (s : text) : bool :=
  match s with [] => false | h :: _ => negb (Py.isspace h) end.
Definition last_ok (s : text) : bool := first_ok (rev s).

(** *** The report of [main] *)

(** Lines 212-215 of [main]: what one turn of the loop over
    [medicine_details] adds to [medicine_content]. *)
Definition add_record (content : text) (med : MedicineRecord) : text :=
  let content := content +++ ("Medicine Name: " +++ name med +++ [nl]) in
  let content := content +++ ("Dosage: " +++ dosage med +++ [nl]) in
  let content := content +++ ("Frequency: " +++ frequency med +++ [nl]) in
  content +++ (repeat "-"%char 20 +++ [nl]).

(** Lines 210-215 of [main]: the text written to the medicine file. *)
Definition medicine_content (medicine_details : list MedicineRecord) : text :=
  fold_left add_record medicine_details
            ("Medicine Details:" +++ [nl] +++ repeat "="%char 30 +++ [nl]).

(** The four lines of the report that stand for a record. *)
Definition report_lines (med : MedicineRecord) : list text :=
  [ "Medicine Name: " +++ name med; "Dosage: " +++ dosage med;
    "Frequency: " +++ frequency med; repeat "-"%char 20 ].

(** No field of the record holds a line feed. *)
Definition single_line (med : MedicineRecord) : Prop :=
  ~ In nl (name med) /\ ~ In nl (dosage med) /\ ~ In nl (frequency med).

(* ================================================================== *)
(** ** Facts about the string functions *)
(* ================================================================== *)

Module PyFacts.
Import Py.

Lemma forallb_rev {A : Type} (p : A -> bool) (l : list A) :
  forallb p (rev l) = forallb p l.
Proof.
  induction l as [|x l IH]; simpl; [reflexivity|].
  rewrite forallb_app, IH. simpl. rewrite andb_true_r. apply andb_comm.
Qed.

Lemma lstrip_spaces (s : text) : forallb isspace s = true -> lstrip s = [].
Proof.
  induction s as [|c t IH]; simpl; [reflexivity|].
  intros H. apply andb_prop in H as [Hc Ht]. rewrite Hc. auto.
Qed.

Lemma lstrip_nil_inv (s : text) : lstrip s = [] -> forallb isspace s = true.
Proof.
  induction s as [|c t IH]; simpl; [reflexivity|].
  destruct (isspace c); [auto | discriminate].
Qed.

(** What [lstrip] leaves is empty or starts with a character that is
    not white space. *)
Lemma lstrip_head (s : text) :
  lstrip s = [] \/ exists c t, lstrip s = c :: t /\ isspace c = false.
Proof.
  induction s as [|c t IH]; simpl; [now left|].
  destruct (isspace c) eqn:E; [exact IH|].
  right. now exists c, t.
Qed.

Lemma lstrip_fixed (c : ascii) (t : text) :
  isspace c = false -> lstrip (c :: t) = c :: t.
Proof. intros H. simpl. now rewrite H. Qed.

Lemma lstrip_idem (s : text) : lstrip (lstrip s) = lstrip s.
Proof.
  destruct (lstrip_head s) as [E | (c & t & E & Hc)]; rewrite E.
  - reflexivity.
  - now apply lstrip_fixed.
Qed.

Lemma lstrip_snoc (l : text) (c : ascii) :
  isspace c = false -> exists u, lstrip (l ++ [c]) = u ++ [c].
Proof.
  intros Hc. induction l as [|x l IH]; simpl.
  - rewrite Hc. now exists [].
  - destruct (isspace x); [exact IH|].
    now exists (x :: l).
Qed.

Lemma rstrip_idem (s : text) : rstrip (rstrip s) = rstrip s.
Proof. unfold rstrip. now rewrite rev_involutive, lstrip_idem. Qed.

Lemma lstrip_rstrip (s : text) : lstrip s = s -> lstrip (rstrip s) = rstrip s.
Proof.
  intros H. destruct (lstrip_head s) as [E | (c & t & E & Hc)]; rewrite H in E.
  - now subst s.
  - subst s. unfold rstrip. simpl rev.
    destruct (lstrip_snoc (rev t) c Hc) as [u Hu]. rewrite Hu.
    rewrite rev_app_distr. simpl. now rewrite Hc.
Qed.

Lemma strip_lstrip (s : text) : lstrip (strip s) = strip s.
Proof. unfold strip. apply lstrip_rstrip, lstrip_idem. Qed.

(** [s.strip().strip() == s.strip()] *)
Lemma strip_idem (s : text) : strip (strip s) = strip s.
Proof.
  unfold strip at 1. rewrite strip_lstrip. unfold strip. apply rstrip_idem.
Qed.

Lemma strip_spaces (s : text) : forallb isspace s = true -> strip s = [].
Proof. intros H. unfold strip. now rewrite (lstrip_spaces s H). Qed.

Lemma strip_nil_inv (s : text) : strip s = [] -> forallb isspace s = true.
Proof.
  unfold strip, rstrip. intros H.
  assert (E : lstrip (rev (lstrip s)) = []).
  { rewrite <- (rev_involutive (lstrip (rev (lstrip s)))), H. reflexivity. }
  apply lstrip_nil_inv in E. rewrite forallb_rev in E.
  destruct (lstrip_head s) as [E' | (c & t & E' & Hc)].
  - now apply lstrip_nil_inv.
  - rewrite E' in E. simpl in E. now rewrite Hc in E.
Qed.

(** A text that starts and ends with characters that are not white
    space is left as it is. *)
Lemma strip_fixed (s : text) :
  lstrip s = s -> lstrip (rev s) = rev s -> strip s = s.
Proof.
  intros H1 H2. unfold strip, rstrip. rewrite H1, H2. apply rev_involutive.
Qed.

Lemma strip_not_nil (s : text) (c : ascii) :
  In c s -> isspace c = false -> strip s <> [].
Proof.
  intros Hin Hc E. apply strip_nil_inv in E.
  rewrite forallb_forall in E. specialize (E c Hin). congruence.
Qed.

Lemma truthy_true (s : text) : truthy s = true <-> s <> [].
Proof. destruct s; simpl; split; congruence. Qed.

Lemma startswith_spec (p s : text) :
  startswith p s = true <-> exists post, s = p ++ post.
Proof.
  revert s. induction p as [|a p IH]; intros s; simpl.
  - split; [now exists s | reflexivity].
  - destruct s as [|b s].
    + split; [discriminate | now intros [post H]].
    + rewrite andb_true_iff, IH. split.
      * intros [E [post ->]]. apply Ascii.eqb_eq in E. subst. now exists post.
      * intros [post E]. injection E as -> ->. split; [apply Ascii.eqb_refl | now exists post].
Qed.

(** [sub in s] holds exactly when [s] is [pre + sub + post]. *)
Lemma contains_spec (sub s : text) :
  contains sub s = true <-> exists pre post, s = pre ++ sub ++ post.
Proof.
  induction s as [|c s IH]; simpl.
  - rewrite orb_false_r, startswith_spec. split.
    + intros [post E]. now exists [], post.
    + intros (pre & post & E). symmetry in E.
      apply app_eq_nil in E as [-> E]. now exists post.
  - rewrite orb_true_iff, startswith_spec, IH. split.
    + intros [[post E] | (pre & post & E)].
      * now exists [], post.
      * exists (c :: pre), post. now rewrite E.
    + intros (pre & post & E). destruct pre as [|x pre].
      * left. now exists post.
      * right. injection E as _ E. now exists pre, post.
Qed.

Lemma split_spaces (sep : ascii) (s : text) :
  forallb isspace s = true ->
  Forall (fun l => forallb isspace l = true) (split sep s).
Proof.
  induction s as [|c t IH]; simpl; intros H.
  - now repeat constructor.
  - apply andb_prop in H as [Hc Ht]. specialize (IH Ht).
    destruct (Ascii.eqb c sep).
    + now constructor.
    + destruct (split sep t) as [|h r]; [now repeat constructor; simpl; rewrite Hc|].
      inversion IH; subst. constructor; [simpl; now rewrite Hc|assumption].
Qed.

Lemma digit_not_space (c : ascii) : isdecimal c = true -> isspace c = false.
Proof. destruct c as [[] [] [] [] [] [] [] []]; vm_compute; congruence. Qed.

Lemma digit_word (c : ascii) : isdecimal c = true -> isword c = true.
Proof. destruct c as [[] [] [] [] [] [] [] []]; vm_compute; congruence. Qed.

Lemma upper_not_space (c : ascii) : isupper_az c = true -> isspace c = false.
Proof. destruct c as [[] [] [] [] [] [] [] []]; vm_compute; congruence. Qed.

Lemma upper_not_digit (c : ascii) : isupper_az c = true -> isdecimal c = false.
Proof. destruct c as [[] [] [] [] [] [] [] []]; vm_compute; congruence. Qed.

End PyFacts.

(* ================================================================== *)
(** ** Facts about the matcher *)
(* ================================================================== *)

Module ReFacts.
Import Py PyFacts.

Lemma lastc_app (pv : option ascii) (w1 w2 : text) :
  lastc pv (w1 ++ w2) = lastc (lastc pv w1) w2.
Proof. unfold lastc. apply fold_left_app. Qed.

Lemma lastc_cons (pv : option ascii) (x : ascii) (w : text) :
  lastc pv (x :: w) = lastc (Some x) w.
Proof. reflexivity. Qed.

Lemma lastc_class (p : ascii -> bool) (pv : option ascii) (w : text) :
  forallb p w = true -> w <> [] -> exists d, lastc pv w = Some d /\ p d = true.
Proof.
  revert pv. induction w as [|x w IH]; intros pv H Hne; [congruence|].
  simpl in H. apply andb_prop in H as [Hx Hw]. rewrite lastc_cons.
  destruct w as [|y w'].
  - exists x. now split.
  - apply IH; [assumption | discriminate].
Qed.

Lemma span_refl (s : mstate) : span s s [].
Proof. now split. Qed.

Lemma span_trans (s k m : mstate) (w1 w2 : text) :
  span s k w1 -> span k m w2 -> span s m (w1 ++ w2).
Proof.
  intros [E1 P1] [E2 P2]. split.
  - now rewrite E1, E2, app_assoc.
  - now rewrite P2, P1, lastc_app.
Qed.

Lemma consumed_span (s m : mstate) (w : text) : span s m w -> consumed s m = w.
Proof.
  intros [E _]. unfold consumed. rewrite E, length_app.
  replace (length w + length (rest m) - length (rest m)) with (length w) by lia.
  rewrite firstn_app, firstn_all, Nat.sub_diag. simpl. apply app_nil_r.
Qed.

(** *** One lemma for each construct *)

Lemma in_step1 (p : ascii -> bool) (s m : mstate) :
  In m (step1 p s) <->
  exists x, p x = true /\ span s m [x] /\ caps m = caps s.
Proof.
  unfold step1, span. destruct s as [pv r cs], m as [pv' r' cs']; simpl.
  destruct r as [|x t].
  - split; [contradiction | now intros (x & _ & [E _] & _)].
  - destruct (p x) eqn:Px; simpl.
    + split.
      * intros [E | []]. injection E as <- <- <-. now exists x.
      * intros (y & Py & [E P] & C). injection E as <- <-. left. now subst.
    + split; [contradiction|].
      intros (y & Py & [E P] & C). injection E as <- <-. congruence.
Qed.

Lemma in_spans (p : ascii -> bool) (r : text) :
  forall (lo : nat) (hi : option nat) (pv pv' : option ascii) (r' : text),
    In (pv', r') (skipn lo (spans p hi pv r)) <->
    exists w, r = w ++ r' /\ pv' = lastc pv w /\ forallb p w = true /\
              lo <= length w /\ within hi (length w).
Proof.
  induction r as [|x t IH]; intros lo hi pv pv' r'.
  - simpl. destruct lo; simpl.
    + split.
      * intros [E | []]. injection E as <- <-. exists []. simpl.
        repeat split; try lia. destruct hi; simpl; lia.
      * intros (w & E & P & _). symmetry in E. apply app_eq_nil in E as [-> ->].
        left. now rewrite P.
    + rewrite skipn_nil. split; [contradiction|].
      intros (w & E & _ & _ & L & _). symmetry in E.
      apply app_eq_nil in E as [-> _]. simpl in L. lia.
  - assert (Tail : forall lo',
      In (pv', r') (skipn lo'
        (if p x then match hi with
                     | None => spans p None (Some x) t
                     | Some (S k) => spans p (Some k) (Some x) t
                     | Some 0 => []
                     end else [])) <->
      exists w, t = w ++ r' /\ pv' = lastc (Some x) w /\ forallb p (x :: w) = true /\
                lo' <= length w /\ within hi (S (length w))).
    { intros lo'. simpl forallb. destruct (p x); simpl andb.
      - destruct hi as [[|k]|].
        + rewrite skipn_nil. split; [contradiction|].
          intros (w & _ & _ & _ & _ & W). simpl in W. lia.
        + rewrite IH. split; intros (w & ? & ? & ? & ? & W); exists w;
            repeat split; try assumption; simpl in *; lia.
        + rewrite IH. split; intros (w & ? & ? & ? & ? & W); exists w;
            repeat split; assumption.
      - rewrite skipn_nil. split; [contradiction|].
        intros (w & _ & _ & F & _). discriminate. }
    simpl spans. destruct lo as [|lo]; simpl skipn.
    + simpl In. rewrite (Tail 0). split.
      * intros [E | (w & E & P & F & L & W)].
        -- injection E as <- <-. exists []. simpl. repeat split; try lia.
           destruct hi; simpl; lia.
        -- exists (x :: w). subst. simpl. repeat split; try assumption. lia.
      * intros (w & E & P & F & L & W). destruct w as [|y w].
        -- left. simpl in *. now subst.
        -- right. injection E as <- ->. exists w. repeat split; try assumption. lia.
    + rewrite (Tail lo). split.
      * intros (w & E & P & F & L & W).
        exists (x :: w). subst. simpl. repeat split; try assumption. simpl in L. lia.
      * intros (w & E & P & F & L & W). destruct w as [|y w]; [simpl in L; lia|].
        injection E as <- ->. exists w. repeat split; try assumption. simpl in L. lia.
Qed.

Section Constructs.
Variable ic : bool.

Lemma in_run_eps n s m : In m (run ic Eps n s) <-> m = s.
Proof. simpl. split; [now intros [-> | []] | now left]. Qed.

Lemma in_run_chr c n s m :
  In m (run ic (Chr c) n s) <->
  exists x, chr_eq ic c x = true /\ span s m [x] /\ caps m = caps s.
Proof. apply in_step1. Qed.

Lemma in_run_cls p n s m :
  In m (run ic (Cls p) n s) <->
  exists x, p x = true /\ span s m [x] /\ caps m = caps s.
Proof. apply in_step1. Qed.

Lemma in_run_seq r1 r2 n s m :
  In m (run ic (Seq r1 r2) n s) <->
  exists k, In k (run ic r1 n s) /\ In m (run ic r2 (n + ngroups r1) k).
Proof. simpl. apply in_flat_map. Qed.

Lemma in_run_alt r1 r2 n s m :
  In m (run ic (Alt r1 r2) n s) <->
  In m (run ic r1 n s) \/ In m (run ic r2 (n + ngroups r1) s).
Proof. simpl. apply in_app_iff. Qed.

Lemma in_run_opt r n s m :
  In m (run ic (Opt r) n s) <-> In m (run ic r n s) \/ m = s.
Proof.
  simpl. rewrite in_app_iff. simpl. intuition congruence.
Qed.

Lemma in_run_rep lo hi p n s m :
  In m (run ic (Rep lo hi p) n s) <->
  exists w, span s m w /\ caps m = caps s /\ forallb p w = true /\
            lo <= length w /\ within hi (length w).
Proof.
  simpl. rewrite in_map_iff. unfold span. split.
  - intros ([pv' r'] & <- & H). rewrite <- in_rev in H.
    apply in_spans in H as (w & E & P & F & L & W). exists w. simpl. now repeat split.
  - intros (w & [E P] & C & F & L & W). exists (prev m, rest m). split.
    + destruct m; simpl in *. now subst.
    + rewrite <- in_rev. apply in_spans. exists w. now repeat split.
Qed.

Lemma in_run_grp r n s m :
  In m (run ic (Grp r) n s) <->
  exists k, In k (run ic r (S n) s) /\
            m = MState (prev k) (rest k) ((n, consumed s k) :: caps k).
Proof.
  simpl. rewrite in_map_iff. split; intros (k & H1 & H2); exists k; now split.
Qed.

Lemma in_run_wordb n s m :
  In m (run ic WordB n s) <-> m = s /\ at_boundary s = true.
Proof.
  simpl. destruct (at_boundary s); simpl; intuition congruence.
Qed.

(** Matching moves forward in the subject. *)
Lemma run_span r : forall n s m, In m (run ic r n s) -> exists w, span s m w.
Proof.
  induction r as [| c | p | r1 IH1 r2 IH2 | r1 IH1 r2 IH2 | r IH | lo hi p | r IH | | |];
    intros n s m H.
  - apply in_run_eps in H as ->. exists []. apply span_refl.
  - apply in_run_chr in H as (x & _ & Sp & _). now exists [x].
  - apply in_run_cls in H as (x & _ & Sp & _). now exists [x].
  - apply in_run_seq in H as (k & H1 & H2).
    apply IH1 in H1 as [w1 S1]. apply IH2 in H2 as [w2 S2].
    exists (w1 ++ w2). eapply span_trans; eassumption.
  - apply in_run_alt in H as [H | H]; eauto.
  - apply in_run_opt in H as [H | ->]; [eauto|]. exists []. apply span_refl.
  - apply in_run_rep in H as (w & Sp & _). now exists w.
  - apply in_run_grp in H as (k & H & ->). apply IH in H as [w Sp].
    exists w. exact Sp.
  - apply in_run_wordb in H as [-> _]. exists []. apply span_refl.
  - simpl in H. destruct (prev s); [contradiction|].
    destruct H as [<- | []]. exists []. apply span_refl.
  - simpl in H. destruct (rest s) as [|x [|y t]]; try contradiction.
    + destruct H as [<- | []]. exists []. apply span_refl.
    + destruct (Ascii.eqb x "010"); [|contradiction].
      destruct H as [<- | []]. exists []. apply span_refl.
Qed.

(** Matching only adds groups, numbered from the next number on. *)
Lemma run_caps r : forall n s m,
  In m (run ic r n s) ->
  exists new, caps m = new ++ caps s /\ Forall (fun kv => n <= fst kv) new.
Proof.
  induction r as [| c | p | r1 IH1 r2 IH2 | r1 IH1 r2 IH2 | r IH | lo hi p | r IH | | |];
    intros n s m H.
  - apply in_run_eps in H as ->. now exists [].
  - apply in_run_chr in H as (x & _ & _ & C). now exists [].
  - apply in_run_cls in H as (x & _ & _ & C). now exists [].
  - apply in_run_seq in H as (k & H1 & H2).
    apply IH1 in H1 as (n1 & C1 & F1). apply IH2 in H2 as (n2 & C2 & F2).
    exists (n2 ++ n1). split; [now rewrite C2, C1, app_assoc|].
    apply Forall_app. split; [|assumption].
    eapply Forall_impl; [|exact F2]. simpl. intros; lia.
  - apply in_run_alt in H as [H | H]; [eauto|].
    apply IH2 in H as (n2 & C2 & F2). exists n2. split; [assumption|].
    eapply Forall_impl; [|exact F2]. simpl. intros; lia.
  - apply in_run_opt in H as [H | ->]; [eauto|]. now exists [].
  - apply in_run_rep in H as (w & _ & C & _). now exists [].
  - apply in_run_grp in H as (k & H & ->). apply IH in H as (n1 & C1 & F1).
    exists ((n, consumed s k) :: n1). simpl. split; [now rewrite C1|].
    constructor; [simpl; lia|].
    eapply Forall_impl; [|exact F1]. simpl. intros; lia.
  - apply in_run_wordb in H as [-> _]. now exists [].
  - simpl in H. destruct (prev s); [contradiction|].
    destruct H as [<- | []]. now exists [].
  - simpl in H. destruct (rest s) as [|x [|y t]]; try contradiction.
    + destruct H as [<- | []]. now exists [].
    + destruct (Ascii.eqb x "010"); [|contradiction].
      destruct H as [<- | []]. now exists [].
Qed.

End Constructs.

Lemma lookup_older (k : nat) (new cs : list (nat * text)) :
  Forall (fun kv => k < fst kv) new -> lookup k (new ++ cs) = lookup k cs.
Proof.
  induction 1 as [|[j v] new Hj _ IH]; simpl; [reflexivity|].
  simpl in Hj. destruct (Nat.eqb_spec j k); [lia | exact IH].
Qed.

(** *** Searching *)

Lemma match_at_in ic r pv t m :
  match_at ic r pv t = Some m -> In m (run ic r 1 (MState pv t [])).
Proof.
  unfold match_at. destruct (run ic r 1 (MState pv t [])); simpl; [discriminate|].
  intros E. injection E as ->. now left.
Qed.

Lemma in_match_at ic r pv t m :
  In m (run ic r 1 (MState pv t [])) -> exists m', match_at ic r pv t = Some m'.
Proof.
  unfold match_at. destruct (run ic r 1 (MState pv t [])) as [|m' l]; simpl; [contradiction|].
  intros _. now exists m'.
Qed.

Lemma match_at_none ic r pv t :
  match_at ic r pv t = None -> run ic r 1 (MState pv t []) = [].
Proof.
  unfold match_at. now destruct (run ic r 1 (MState pv t [])).
Qed.

Lemma search_from_eq ic r pv t :
  search_from ic r pv t =
  match match_at ic r pv t with
  | Some m => Some m
  | None => match t with
            | [] => None
            | x :: t' => search_from ic r (Some x) t'
            end
  end.
Proof. destruct t; reflexivity. Qed.

(** What [re.search] returns is a match at some position of the subject. *)
Lemma search_from_some ic r : forall t pv m,
  search_from ic r pv t = Some m ->
  exists pre t', t = pre ++ t' /\ match_at ic r (lastc pv pre) t' = Some m.
Proof.
  induction t as [|x t IH]; intros pv m H; rewrite search_from_eq in H.
  - destruct (match_at ic r pv []) eqn:E; [|discriminate].
    injection H as ->. now exists [], [].
  - destruct (match_at ic r pv (x :: t)) eqn:E.
    + injection H as ->. now exists [], (x :: t).
    + apply IH in H as (pre & t' & -> & H). now exists (x :: pre), t'.
Qed.

(** If some position of the subject has a match, [re.search] returns one. *)
Lemma search_from_found ic r : forall pre t' pv m,
  In m (run ic r 1 (MState (lastc pv pre) t' [])) ->
  exists m', search_from ic r pv (pre ++ t') = Some m'.
Proof.
  induction pre as [|x pre IH]; intros t' pv m H; rewrite search_from_eq.
  - simpl in *. apply in_match_at in H as [m' ->]. now exists m'.
  - destruct (match_at ic r pv ((x :: pre) ++ t')) as [m0|]; [now exists m0|].
    simpl. eapply IH. exact H.
Qed.

Lemma search_from_none ic r t pv :
  search_from ic r pv t = None ->
  forall pre t', t = pre ++ t' -> run ic r 1 (MState (lastc pv pre) t' []) = [].
Proof.
  intros H pre t' ->.
  destruct (run ic r 1 (MState (lastc pv pre) t' [])) as [|m l] eqn:E; [reflexivity|].
  destruct (search_from_found ic r pre t' pv m) as [m' H'].
  - rewrite E. now left.
  - congruence.
Qed.

(** *** Building a match, construct by construct *)

Lemma seq_intro ic r1 r2 n s k m :
  In k (run ic r1 n s) -> In m (run ic r2 (n + ngroups r1) k) ->
  In m (run ic (Seq r1 r2) n s).
Proof. intros. apply in_run_seq. eauto. Qed.

Lemma rep_intro ic lo hi p n pv w t cs :
  forallb p w = true -> lo <= length w -> within hi (length w) ->
  In (MState (lastc pv w) t cs) (run ic (Rep lo hi p) n (MState pv (w ++ t) cs)).
Proof. intros. apply in_run_rep. exists w. now repeat split. Qed.

Lemma chr_intro ic c n pv x t cs :
  chr_eq ic c x = true ->
  In (MState (Some x) t cs) (run ic (Chr c) n (MState pv (x :: t) cs)).
Proof. intros. apply in_run_chr. exists x. now repeat split. Qed.

Lemma opt_cls_intro ic p n pv w t cs :
  opt_one p w ->
  In (MState (lastc pv w) t cs) (run ic (Opt (Cls p)) n (MState pv (w ++ t) cs)).
Proof.
  intros [-> | (c & -> & Hc)]; apply in_run_opt.
  - now right.
  - left. apply in_run_cls. exists c. now repeat split.
Qed.

Lemma opt_chr_intro c n pv w t cs :
  opt_one (Ascii.eqb c) w ->
  In (MState (lastc pv w) t cs) (run false (Opt (Chr c)) n (MState pv (w ++ t) cs)).
Proof.
  intros [-> | (x & -> & Hc)]; apply in_run_opt.
  - now right.
  - left. apply in_run_chr. exists x. now repeat split.
Qed.

Lemma in_run_opt_cls ic p n s m :
  In m (run ic (Opt (Cls p)) n s) ->
  exists w, opt_one p w /\ span s m w /\ caps m = caps s.
Proof.
  intros H. apply in_run_opt in H as [H | ->].
  - apply in_run_cls in H as (x & Px & Sp & C). exists [x].
    split; [right; now exists x | now split].
  - exists []. split; [now left | split; [apply span_refl | reflexivity]].
Qed.

Lemma in_run_opt_chr c n s m :
  In m (run false (Opt (Chr c)) n s) ->
  exists w, opt_one (Ascii.eqb c) w /\ span s m w /\ caps m = caps s.
Proof.
  intros H. apply in_run_opt in H as [H | ->].
  - apply in_run_chr in H as (x & Px & Sp & C). exists [x].
    split; [right; now exists x | now split].
  - exists []. split; [now left | split; [apply span_refl | reflexivity]].
Qed.

End ReFacts.

(* ================================================================== *)
(** ** Facts about the patterns of [app.py] *)
(* ================================================================== *)

Module PatternFacts.
Import Py PyFacts ReFacts.

(** *** Tactics that take a match apart, construct by construct *)

Ltac inv_run :=
  repeat match goal with
  | H : In _ (run _ (Seq _ _) _ _) |- _ =>
      let k := fresh "k" in let H1 := fresh "H" in
      apply in_run_seq in H; destruct H as (k & H1 & H); simpl ngroups in H
  | H : In _ (run _ (Rep _ _ _) _ _) |- _ =>
      let w := fresh "w" in let Sp := fresh "Sp" in let C := fresh "C" in
      let F := fresh "F" in let L := fresh "L" in let W := fresh "W" in
      apply in_run_rep in H; destruct H as (w & Sp & C & F & L & W)
  | H : In _ (run _ (Chr _) _ _) |- _ =>
      let x := fresh "x" in let E := fresh "E" in let Sp := fresh "Sp" in let C := fresh "C" in
      apply in_run_chr in H; destruct H as (x & E & Sp & C)
  | H : In _ (run _ (Grp _) _ _) |- _ =>
      let k := fresh "k" in let E := fresh "E" in
      apply in_run_grp in H; destruct H as (k & H & E)
  | H : In _ (run _ WordB _ _) |- _ =>
      let B := fresh "B" in
      apply in_run_wordb in H; destruct H as (H & B)
  end.

Ltac inv_opt :=
  repeat match goal with
  | H : In _ (run false (Opt (Chr _)) _ _) |- _ =>
      let w := fresh "o" in let O := fresh "O" in let Sp := fresh "Sp" in let C := fresh "C" in
      apply in_run_opt_chr in H; destruct H as (w & O & Sp & C)
  | H : In _ (run _ (Opt (Cls _)) _ _) |- _ =>
      let w := fresh "o" in let O := fresh "O" in let Sp := fresh "Sp" in let C := fresh "C" in
      apply in_run_opt_cls in H; destruct H as (w & O & Sp & C)
  | H : In _ (run _ (Seq _ _) _ _) |- _ =>
      let k := fresh "k" in let H1 := fresh "H" in
      apply in_run_seq in H; destruct H as (k & H1 & H); simpl ngroups in H
  end.

Ltac use_consumed :=
  repeat match goal with
  | Hs : span ?a ?b ?w, He : context [consumed ?a ?b] |- _ =>
      rewrite (consumed_span a b w Hs) in He
  end.

Ltac chain_rest :=
  repeat match goal with
  | E : rest ?k = _ |- context [rest ?k] => rewrite E; clear E
  end.

Ltac chain_caps :=
  repeat match goal with
  | E : caps ?k = _ |- context [caps ?k] => rewrite E; clear E
  end.

Lemma nonempty_length (w : text) : 1 <= length w -> w <> [].
Proof. destruct w; simpl; [lia | discriminate]. Qed.

Lemma boundary_start s w t :
  at_boundary s = true -> rest s = w ++ t -> digits w -> w <> [] ->
  is_word_opt (prev s) = false.
Proof.
  unfold at_boundary. intros B E D Hne. rewrite E in B.
  destruct w as [|d w]; [congruence|]. simpl in B.
  unfold digits in D. simpl in D. apply andb_prop in D as [D _].
  rewrite (digit_word d D) in B. now destruct (is_word_opt (prev s)).
Qed.

Lemma boundary_end m pv w :
  at_boundary m = true -> prev m = lastc pv w -> digits w -> w <> [] ->
  ends_word (rest m).
Proof.
  unfold at_boundary, ends_word. intros B E D Hne.
  destruct (lastc_class isdecimal pv w D Hne) as (d & Hd & Dd).
  rewrite E, Hd in B. simpl in B. rewrite (digit_word d Dd) in B.
  now destruct (is_word_opt (hd_error (rest m))).
Qed.

Lemma chr_eq_false c x : chr_eq false c x = true -> x = c.
Proof. simpl. intros H. apply Ascii.eqb_eq in H. congruence. Qed.




Lemma xyz_sound s m :
  In m (run false xyz_pattern 1 s) ->
  exists a w1 w2 b w3 w4 c,
    rest s = a ++ w1 ++ "-"%char :: w2 ++ b ++ w3 ++ "-"%char :: w4 ++ c ++ rest m /\
    digits a /\ a <> [] /\ digits b /\ b <> [] /\ digits c /\ c <> [] /\
    spaces w1 /\ spaces w2 /\ spaces w3 /\ spaces w4 /\
    is_word_opt (prev s) = false /\ ends_word (rest m) /\
    caps m = (3, c) :: (2, b) :: (1, a) :: caps s.
Proof.
  unfold xyz_pattern, plus, star. intros H. inv_run. use_consumed.
  apply chr_eq_false in E, E0. subst.
  repeat match goal with Hs : span _ _ _ |- _ => destruct Hs as [? ?] end.
  simpl in *.
  exists w5, w2, w1, w4, w0, w, w3.
  assert (N5 := nonempty_length _ L5). assert (N4 := nonempty_length _ L4).
  assert (N3 := nonempty_length _ L3).
  repeat match goal with |- _ /\ _ => split end; try assumption.
  - chain_rest. reflexivity.
  - eapply boundary_start; eassumption.
  - eapply (boundary_end _ _ w3 B); simpl; eassumption.
  - chain_caps. reflexivity.
Qed.




Lemma exact_length (n : nat) (w : text) :
  n <= length w -> within (Some n) (length w) -> length w = n.
Proof. simpl. lia. Qed.

Lemma country_sound n s k :
  In k (run false
          (Opt (Grp (Opt (Chr "+");; Rep 1 (Some 3) isdecimal;; Opt (Cls is_sep)))) n s) ->
  exists cc, span s k cc /\ (cc = [] \/ country_code cc).
Proof.
  intros H. apply in_run_opt in H as [H | ->].
  - apply in_run_grp in H as (k' & H & ->). inv_opt. inv_run.
    exists (o ++ w ++ o0). split.
    + destruct (span_trans _ _ _ _ _ Sp (span_trans _ _ _ _ _ Sp1 Sp0)) as [E P].
      split; assumption.
    + right. exists o, w, o0. simpl in W. repeat split; assumption.
  - exists []. split; [apply span_refl | now left].
Qed.

Lemma phone_sound s m :
  In m (run false phone_pattern 1 s) ->
  exists w, rest s = w ++ rest m /\ phone_shape w /\ ends_word (rest m).
Proof.
  unfold phone_pattern, exactly. intros H. inv_opt. inv_run. subst k6.
  apply country_sound in H0 as (cc & Sc & Hcc).
  assert (N : w <> []) by (apply nonempty_length; lia).
  pose proof (span_trans _ _ _ _ _ Sp
               (span_trans _ _ _ _ _ Sp5
                 (span_trans _ _ _ _ _ Sp0
                   (span_trans _ _ _ _ _ Sp1
                     (span_trans _ _ _ _ _ Sp4
                       (span_trans _ _ _ _ _ Sp2 Sp3)))))) as Sl.
  destruct (span_trans _ _ _ _ _ Sc Sl) as [E _].
  exists (cc ++ o ++ w1 ++ o0 ++ o1 ++ w0 ++ o2 ++ w). split; [exact E|]. split.
  - exists cc, (o ++ w1 ++ o0 ++ o1 ++ w0 ++ o2 ++ w). split; [reflexivity|].
    split; [exact Hcc|].
    exists o, w1, o0, o1, w0, o2, w.
    repeat split; try assumption; now apply exact_length.
  - destruct Sp3 as [_ P]. eapply boundary_end; eassumption.
Qed.

Lemma phone_complete pv w post :
  phone_shape w -> ends_word post ->
  exists m, In m (run false phone_pattern 1 (MState pv (w ++ post) [])).
Proof.
  intros (cc & loc & -> & Hcc & lp & g1 & rp & s1 & g2 & s2 & g3 & -> &
          Olp & D1 & L1 & Orp & Os1 & D2 & L2 & Os2 & D3 & L3) Hend.
  unfold phone_pattern, exactly.
  assert (Hc : exists cs,
    In (MState (lastc pv cc) ((lp ++ g1 ++ rp ++ s1 ++ g2 ++ s2 ++ g3) ++ post) cs)
       (run false
          (Opt (Grp (Opt (Chr "+");; Rep 1 (Some 3) isdecimal;; Opt (Cls is_sep)))) 1
          (MState pv (cc ++ (lp ++ g1 ++ rp ++ s1 ++ g2 ++ s2 ++ g3) ++ post) []))).
  { remember ((lp ++ g1 ++ rp ++ s1 ++ g2 ++ s2 ++ g3) ++ post) as tl eqn:Etl. clear Etl.
    destruct Hcc as [-> | (sign & c3 & s0 & -> & Osg & Dc & Lc & Os0)].
    - exists []. apply in_run_opt. now right.
    - eexists. apply in_run_opt. left. apply in_run_grp. eexists. split.
      + repeat rewrite <- app_assoc.
        eapply seq_intro; [apply opt_chr_intro; exact Osg|].
        eapply seq_intro; [apply rep_intro; [exact Dc | lia | simpl; lia]|].
        apply opt_cls_intro. exact Os0.
      + simpl. repeat rewrite lastc_app. reflexivity. }
  destruct Hc as [cs Hc].
  rewrite <- (app_assoc cc).
  eexists. eapply seq_intro; [exact Hc|]. simpl ngroups.
  repeat rewrite <- app_assoc.
  eapply seq_intro; [apply opt_chr_intro; exact Olp|].
  eapply seq_intro; [apply rep_intro; [exact D1 | lia | simpl; lia]|].
  eapply seq_intro; [apply opt_chr_intro; exact Orp|].
  eapply seq_intro; [apply opt_cls_intro; exact Os1|].
  eapply seq_intro; [apply rep_intro; [exact D2 | lia | simpl; lia]|].
  eapply seq_intro; [apply opt_cls_intro; exact Os2|].
  eapply seq_intro; [apply rep_intro; [exact D3 | lia | simpl; lia]|].
  apply in_run_wordb. split; [reflexivity|].
  unfold at_boundary. simpl.
  destruct (lastc_class isdecimal (lastc (lastc (lastc (lastc (lastc (lastc (lastc pv cc) lp) g1) rp) s1) g2) s2) g3 D3)
    as (d & -> & Dd); [destruct g3; simpl in *; [lia | discriminate]|].
  simpl. rewrite (digit_word d Dd). unfold ends_word in Hend. now rewrite Hend.
Qed.

(** [re.search] returns the match at the first position that has one. *)
Lemma search_from_leftmost ic r : forall t pv m,
  search_from ic r pv t = Some m ->
  exists pre t', t = pre ++ t' /\ match_at ic r (lastc pv pre) t' = Some m /\
    forall pre1 t1, t = pre1 ++ t1 -> length pre1 < length pre ->
                    match_at ic r (lastc pv pre1) t1 = None.
Proof.
  induction t as [|x t IH]; intros pv m H; rewrite search_from_eq in H.
  - destruct (match_at ic r pv []) eqn:E; [|discriminate].
    injection H as ->. exists [], []. repeat split; [assumption|].
    simpl. intros; lia.
  - destruct (match_at ic r pv (x :: t)) eqn:E.
    + injection H as ->. exists [], (x :: t). repeat split; [assumption|].
      simpl. intros; lia.
    + apply IH in H as (pre & t' & -> & H & Hmin). exists (x :: pre), t'.
      repeat split; [assumption|].
      intros [|y pre1] t1 E1 L1; simpl in *.
      * now subst t1.
      * injection E1 as <- E1. apply Hmin; [assumption | lia].
Qed.

Lemma phone_iff (line : text) :
  is_likely_phone_number line = true <-> has_phone line.
Proof.
  unfold is_likely_phone_number, re_search, has_phone. split.
  - destruct (search_from false phone_pattern None line) as [m|] eqn:E; [|discriminate].
    intros _. apply search_from_some in E as (pre & t' & -> & E).
    apply match_at_in, phone_sound in E as (w & E & Sh & En). simpl in E.
    exists pre, w, (rest m). now rewrite E.
  - intros (pre & w & post & -> & Sh & En).
    destruct (phone_complete (lastc None pre) w post Sh En) as [m Hm].
    destruct (search_from_found false phone_pattern pre (w ++ post) None m Hm) as [m' ->].
    reflexivity.
Qed.

Lemma local_number_phone (w : text) : local_number w -> phone_shape w.
Proof. intros H. exists [], w. split; [reflexivity|]. split; [now left | exact H]. Qed.

Lemma xyz_complete pv a w1 w2 b w3 w4 c post :
  digits a -> a <> [] -> digits b -> b <> [] -> digits c -> c <> [] ->
  spaces w1 -> spaces w2 -> spaces w3 -> spaces w4 ->
  is_word_opt pv = false -> ends_word post ->
  exists m,
    In m (run false xyz_pattern 1
            (MState pv (a ++ w1 ++ "-"%char :: w2 ++ b ++ w3 ++ "-"%char :: w4 ++ c ++ post) [])).
Proof.
  intros Da Na Db Nb Dc Nc S1 S2 S3 S4 Hpv Hend.
  assert (La : 1 <= length a) by (destruct a; simpl; [congruence | lia]).
  assert (Lb : 1 <= length b) by (destruct b; simpl; [congruence | lia]).
  assert (Lc : 1 <= length c) by (destruct c; simpl; [congruence | lia]).
  unfold xyz_pattern, plus, star. eexists.
  eapply seq_intro.
  { apply in_run_wordb. split; [reflexivity|]. unfold at_boundary. simpl. rewrite Hpv.
    destruct a as [|d a]; [congruence|]. simpl in Da |- *.
    unfold digits in Da. simpl in Da. apply andb_prop in Da as [Dd _].
    now rewrite (digit_word d Dd). }
  eapply seq_intro.
  { apply in_run_grp. eexists. split; [apply rep_intro; [exact Da | exact La | exact I]|reflexivity]. }
  simpl prev. simpl rest. simpl caps.
  eapply seq_intro; [apply rep_intro; [exact S1 | lia | exact I]|].
  eapply seq_intro; [apply chr_intro; reflexivity|].
  eapply seq_intro; [apply rep_intro; [exact S2 | lia | exact I]|].
  eapply seq_intro.
  { apply in_run_grp. eexists. split; [apply rep_intro; [exact Db | exact Lb | exact I]|reflexivity]. }
  simpl prev. simpl rest. simpl caps.
  eapply seq_intro; [apply rep_intro; [exact S3 | lia | exact I]|].
  eapply seq_intro; [apply chr_intro; reflexivity|].
  eapply seq_intro; [apply rep_intro; [exact S4 | lia | exact I]|].
  eapply seq_intro.
  { apply in_run_grp. eexists. split; [apply rep_intro; [exact Dc | exact Lc | exact I]|reflexivity]. }
  simpl prev. simpl rest. simpl caps.
  apply in_run_wordb. split; [reflexivity|].
  unfold at_boundary. simpl.
  match goal with |- context [lastc ?p c] =>
    destruct (lastc_class isdecimal p c Dc Nc) as (d & -> & Dd) end.
  simpl. rewrite (digit_word d Dd). unfold ends_word in Hend. now rewrite Hend.
Qed.

(** In a match of [num_only_pattern] group 1 took part. *)
Lemma num_only_group1 s m :
  In m (run false num_only_pattern 1 s) -> exists g, group m 1 = Some g.
Proof.
  unfold num_only_pattern. intros H.
  apply in_run_seq in H as (k & H1 & H).
  apply in_run_grp in H1 as (k' & _ & ->).
  apply run_caps in H as (new & C & F). simpl caps in C.
  exists (consumed s k'). unfold group. rewrite C, lookup_older; [simpl; reflexivity|].
  eapply Forall_impl; [|exact F]. simpl. intros; lia.
Qed.

(** [extract_dosage] never raises and never leaves [None]. *)
Lemma extract_dosage_ok current l : exists d, extract_dosage current l = Ok (Some d).
Proof.
  unfold extract_dosage.
  destruct (re_search true dosage_pattern l) as [m|].
  - destruct (truthy_opt (group m 1) && truthy_opt (group m 2)); [eauto|].
    destruct (truthy_opt (group m 3) && truthy_opt (group m 4)); eauto.
  - destruct (re_search false num_only_pattern l) as [m|] eqn:E; [|eauto].
    apply search_from_some in E as (pre & t' & _ & E).
    apply match_at_in, num_only_group1 in E as [g ->].
    destruct (truthy_opt current || contains "tablet" l || contains "cap" l); [|eauto].
    destruct (contains "tablet" l); [simpl; eauto|].
    destruct (contains "cap" l); simpl; eauto.
Qed.

(** *** Frequencies *)

Lemma keywords_not_blank : Forall (fun kw => strip kw <> []) frequency_keywords.
Proof. unfold frequency_keywords. repeat constructor; vm_compute; discriminate. Qed.

Lemma scan_frequency_not_blank l : forall kws f0 f,
  Forall (fun kw => strip kw <> []) kws -> strip f0 <> [] ->
  scan_frequency kws l f0 = Ok f -> strip f <> [].
Proof.
  induction kws as [|kw kws IH]; intros f0 f Hk H0 H; simpl in H.
  - now injection H as <-.
  - inversion Hk as [|? ? Hkw Hk']; subst.
    destruct (re_search true (freq_num_pattern kw) l) as [m|].
    + destruct (group m 2) as [g2|]; simpl in H; [|discriminate].
      destruct (contains _ g2) eqn:T.
      * apply IH in H; [assumption | assumption |].
        apply contains_spec in T as (pre & post & ->).
        apply strip_not_nil with (c := "t"%char); [|reflexivity].
        unfold cat. apply in_or_app. right. right.
        apply in_or_app. right. now left.
      * destruct (contains kw l); [now injection H as <- | eauto].
    + destruct (contains kw l); [now injection H as <- | eauto].
Qed.

(** A frequency is never blank. *)
Lemma extract_frequency_not_blank l f : extract_frequency l = Ok f -> strip f <> [].
Proof.
  unfold extract_frequency. destruct (re_search false xyz_pattern l) as [m|].
  - intros H. injection H as <-. apply strip_not_nil with (c := "M"%char); [|reflexivity].
    now left.
  - apply scan_frequency_not_blank; [apply keywords_not_blank | vm_compute; discriminate].
Qed.

(** A text that starts with a character that is not white space and ends
    with a digit is left as it is by [strip]. *)
Lemma strip_keep (h : ascii) (mid w : text) :
  isspace h = false -> digits w -> w <> [] -> strip (h :: mid ++ w) = h :: mid ++ w.
Proof.
  intros Hh D N. apply strip_fixed.
  - now apply lstrip_fixed.
  - destruct (exists_last N) as (w' & d & ->).
    unfold digits in D. rewrite forallb_app in D. apply andb_prop in D as [_ D].
    simpl in D. rewrite andb_true_r in D.
    simpl rev. rewrite !rev_app_distr. simpl. now rewrite (digit_not_space d D).
Qed.

Lemma strip_triplet (a b c : text) :
  digits c -> c <> [] ->
  strip ("Morning: " +++ a +++ ", Afternoon: " +++ b +++ ", Night: " +++ c) =
  "Morning: " +++ a +++ ", Afternoon: " +++ b +++ ", Night: " +++ c.
Proof.
  intros D N.
  replace ("Morning: " +++ a +++ ", Afternoon: " +++ b +++ ", Night: " +++ c)
    with ("M"%char :: (lit "orning: " ++ a ++ lit ", Afternoon: " ++ b ++ lit ", Night: ") ++ c).
  - now apply strip_keep.
  - unfold cat. repeat (simpl; rewrite <- app_assoc). reflexivity.
Qed.

(** *** Names *)

Lemma upper_not_noise (c : ascii) : isupper_az c = true -> is_noise c = false.
Proof. destruct c as [[] [] [] [] [] [] [] []]; vm_compute; congruence. Qed.

Lemma strip_head (x : ascii) (t : text) :
  isspace x = false -> exists u, strip (x :: t) = x :: u.
Proof.
  intros Hx. unfold strip. rewrite (lstrip_fixed x t Hx). unfold rstrip. simpl rev.
  destruct (lstrip_snoc (rev t) x Hx) as [u ->]. exists (rev u).
  now rewrite rev_app_distr.
Qed.

Lemma no_member {A : Type} (l : list A) : (forall x, ~ In x l) -> l = [].
Proof. destruct l as [|a l]; [reflexivity|]. intros H. destruct (H a). now left. Qed.

(** The pattern that removes a trailing dosage has no match starting at
    an upper-case letter. *)
Lemma unit_pattern_upper (unit : text) (x : ascii) (t : text) :
  isupper_az x = true -> match_at true (unit_pattern unit) None (x :: t) = None.
Proof.
  intros Hx. unfold match_at.
  rewrite (no_member (run true (unit_pattern unit) 1 (MState None (x :: t) []))); [reflexivity|].
  intros m H. unfold unit_pattern, star, plus in H.
  apply in_run_seq in H as (k & H1 & H). apply in_run_seq in H as (k2 & H2 & _).
  apply in_run_rep in H1 as (w1 & [E1 _] & _ & F1 & _).
  apply in_run_rep in H2 as (w2 & [E2 _] & _ & F2 & L2 & _).
  simpl in E1. rewrite E2 in E1.
  destruct w1 as [|y w1].
  - destruct w2 as [|y w2]; [simpl in L2; lia|].
    simpl in E1. injection E1 as <- _. simpl in F2. apply andb_prop in F2 as [F2 _].
    rewrite (upper_not_digit x Hx) in F2. discriminate.
  - simpl in E1. injection E1 as <- _. simpl in F1. apply andb_prop in F1 as [F1 _].
    rewrite (upper_not_space x Hx) in F1. discriminate.
Qed.

Lemma strip_unit_head (x : ascii) : forall units (t : text),
  isupper_az x = true -> exists u, strip_unit units (x :: t) = x :: u.
Proof.
  induction units as [|unit units IH]; intros t Hx; simpl.
  - now exists t.
  - destruct (endswith _ _); [|now apply IH].
    unfold re_sub_del. cbn [sub_del]. rewrite (unit_pattern_upper unit x t Hx).
    apply strip_head. now apply upper_not_space.
Qed.

Lemma strip_unit_stripped : forall units (c : text),
  strip c = c -> strip (strip_unit units c) = strip_unit units c.
Proof.
  induction units as [|unit units IH]; intros c Hc; simpl; [exact Hc|].
  destruct (endswith _ _); [apply strip_idem | now apply IH].
Qed.

Lemma noise_upper (x : ascii) (t : text) :
  isupper_az x = true -> match_at false (Cls is_noise) None (x :: t) = None.
Proof.
  intros Hx. unfold match_at. cbn [run]. unfold step1. cbn [rest].
  now rewrite (upper_not_noise x Hx).
Qed.

(** A line of the name shape starts with an upper-case letter. *)
Lemma name_pattern_head (line : text) (m : mstate) :
  re_match false name_pattern line = Some m ->
  exists x t, line = x :: t /\ isupper_az x = true.
Proof.
  unfold re_match. intros H. apply match_at_in in H. unfold name_pattern in H.
  apply in_run_seq in H as (k & H1 & H). apply in_run_seq in H as (k2 & H2 & _).
  simpl in H1. destruct H1 as [<- | []].
  apply in_run_cls in H2 as (x & Hx & [E _] & _). simpl in E.
  exists x, (rest k2). now split.
Qed.

(** The name a name line leaves pending is not empty, starts with the
    upper-case letter the line starts with, and is left as it is by
    [strip]. *)
Lemma derive_name_good (line : text) (m : mstate) :
  re_match false name_pattern line = Some m ->
  derive_name line <> [] /\ strip (derive_name line) = derive_name line.
Proof.
  intros H. apply name_pattern_head in H as (x & t & -> & Hx).
  unfold derive_name. split.
  - unfold re_sub_del. cbn [sub_del]. rewrite (noise_upper x t Hx).
    destruct (strip_head x (sub_del false (Cls is_noise) (Some x) t 0) (upper_not_space x Hx))
      as [u ->].
    destruct (strip_unit_head x dosage_keywords u Hx) as [u' ->]. discriminate.
  - apply strip_unit_stripped, strip_idem.
Qed.

End PatternFacts.

(* ================================================================== *)
(** ** Facts about the loop of [parse_medicine_details] *)
(* ================================================================== *)

Module LoopFacts.
Import Py PyFacts ReFacts PatternFacts.

Lemma process_line_classify st raw :
  process_line st raw =
  match classify raw with
  | Blank | Phone => Ok st
  | NameLine n => Ok (Some n, snd st)
  | DetailLine l => detail_line st l
  end.
Proof.
  unfold process_line, classify.
  destruct (negb (truthy (strip raw))); [reflexivity|].
  destruct (is_likely_phone_number (strip raw)); [reflexivity|].
  destruct (is_name_line (strip raw) (lower (strip raw))); reflexivity.
Qed.

Lemma classify_name_good raw n : classify raw = NameLine n -> good_pending (Some n).
Proof.
  unfold classify.
  destruct (negb (truthy (strip raw))); [discriminate|].
  destruct (is_likely_phone_number (strip raw)); [discriminate|].
  destruct (is_name_line (strip raw) (lower (strip raw))) eqn:E; [|discriminate].
  intros H. injection H as <-. unfold is_name_line in E.
  apply andb_prop in E as [E _].
  destruct (re_match false name_pattern (strip raw)) as [m|] eqn:M; [|discriminate].
  exact (derive_name_good (strip raw) m M).
Qed.

Lemma classify_phone raw :
  classify raw = Phone <->
  strip raw <> [] /\ is_likely_phone_number (strip raw) = true.
Proof.
  unfold classify. destruct (strip raw) as [|c t] eqn:E; simpl truthy; simpl negb.
  - split; [discriminate | now intros [H _]].
  - destruct (is_likely_phone_number (c :: t)).
    + split; [now split | reflexivity].
    + destruct (is_name_line (c :: t) (lower (c :: t))); split; try discriminate;
        now intros [_ H].
Qed.

Lemma detail_line_pending n meds l st' :
  n <> [] -> detail_line (Some n, meds) l = Ok st' ->
  exists d f,
    extract_dosage (Some n) l = Ok (Some d) /\ extract_frequency l = Ok f /\
    st' = (None, meds ++ [mkRecord (strip n) (strip d) (strip f)]).
Proof.
  intros Hn. unfold detail_line. simpl fst.
  destruct (extract_dosage_ok (Some n) l) as [d ->]. simpl bind.
  destruct (extract_frequency l) as [f|e]; simpl bind; [|discriminate].
  unfold emit. simpl. destruct n as [|c n]; [congruence|]. simpl.
  intros H. injection H as <-. now exists d, f.
Qed.

Lemma detail_line_idle meds l st' :
  detail_line (None, meds) l = Ok st' -> st' = (None, meds).
Proof.
  unfold detail_line. simpl fst.
  destruct (extract_dosage None l) as [d|e]; simpl bind; [|discriminate].
  destruct (extract_frequency l) as [f|e]; simpl bind; [|discriminate].
  unfold emit. simpl. congruence.
Qed.

(** The loop does what the assembler of the specification does with the
    lines as [classify] reads them: the records it adds are, in order, the
    pairs the assembler makes. *)
Lemma loop_refines : forall lines cur meds cur' meds',
  good_pending cur -> loop (cur, meds) lines = Ok (cur', meds') ->
  exists new,
    meds' = meds ++ new /\
    Forall2 (fun r p => record_of r p /\ name r <> [] /\ frequency r <> [])
            new (assemble (asm_of cur) (map classify lines)).
Proof.
  induction lines as [|raw lines IH]; intros cur meds cur' meds' G H.
  - simpl in H. injection H as <- <-. exists []. split; [now rewrite app_nil_r | constructor].
  - cbn [loop] in H. rewrite process_line_classify in H. cbn [map assemble].
    destruct (classify raw) as [| | n | l] eqn:K; cbn [bind snd] in H.
    + eapply IH; eassumption.
    + eapply IH; eassumption.
    + apply IH in H; [exact H | exact (classify_name_good raw n K)].
    + destruct (detail_line (cur, meds) l) as [st'|e] eqn:D; cbn [bind] in H; [|discriminate].
      destruct cur as [n|]; cbn [asm_of].
      * destruct G as [Gn Gs].
        apply detail_line_pending in D as (d & f & Ed & Ef & ->); [|exact Gn].
        apply IH in H as (new & -> & F); [|exact I].
        exists (mkRecord (strip n) (strip d) (strip f) :: new).
        split; [now rewrite <- app_assoc|].
        constructor; [|exact F]. cbn [name frequency]. repeat split.
        -- exact Gs.
        -- exists d, f. now repeat split.
        -- now rewrite Gs.
        -- exact (extract_frequency_not_blank l f Ef).
      * apply detail_line_idle in D as ->. exact (IH None meds cur' meds' I H).
Qed.

Lemma loop_blank st : forall lines,
  Forall (fun l => forallb isspace l = true) lines -> loop st lines = Ok st.
Proof.
  induction 1 as [|raw lines Hr _ IH]; [reflexivity|].
  cbn [loop]. unfold process_line. rewrite (strip_spaces raw Hr). exact IH.
Qed.

Lemma has_phone_not_nil line : has_phone line -> line <> [].
Proof.
  intros (pre & w & post & -> & (cc & loc & -> & _ & L) & _).
  destruct L as (lp & g1 & rp & s1 & g2 & s2 & g3 & -> & _ & _ & L1 & _).
  destruct g1 as [|d g1]; [discriminate|].
  intros E. apply (f_equal (@length ascii)) in E. rewrite !length_app in E.
  simpl in E. lia.
Qed.

Lemma opt_one_chars (p q : ascii -> bool) (w : text) :
  (forall c, p c = true -> q c = true) -> opt_one p w -> forallb q w = true.
Proof.
  intros Hpq [-> | (c & -> & Hc)]; [reflexivity|]. simpl. now rewrite (Hpq c Hc).
Qed.

Lemma forallb_weaken (p q : ascii -> bool) (w : text) :
  (forall c, p c = true -> q c = true) -> forallb p w = true -> forallb q w = true.
Proof.
  intros Hpq H. rewrite forallb_forall in *. auto.
Qed.

(** A text of the phone-number shape holds nothing but digits, separators,
    ['+'] and parentheses. *)
Lemma phone_shape_chars (w : text) : phone_shape w -> forallb is_phone_char w = true.
Proof.
  assert (Hd : forall c, isdecimal c = true -> is_phone_char c = true).
  { intros c H. unfold is_phone_char. now rewrite H. }
  assert (Hs : forall c, is_sep c = true -> is_phone_char c = true).
  { intros c H. unfold is_phone_char. rewrite H. now rewrite orb_true_r. }
  assert (Hc : forall x, existsb (Ascii.eqb x) (lit "+()") = true ->
                forall c, Ascii.eqb x c = true -> is_phone_char c = true).
  { intros x Hx c H. apply Ascii.eqb_eq in H. subst c. unfold is_phone_char.
    rewrite Hx. now rewrite !orb_true_r. }
  intros (cc & loc & -> & Hcc & lp & g1 & rp & s1 & g2 & s2 & g3 & -> &
          Olp & D1 & _ & Orp & Os1 & D2 & _ & Os2 & D3 & _).
  rewrite !forallb_app.
  rewrite (opt_one_chars _ _ lp (Hc "("%char eq_refl) Olp).
  rewrite (forallb_weaken _ _ g1 Hd D1).
  rewrite (opt_one_chars _ _ rp (Hc ")"%char eq_refl) Orp).
  rewrite (opt_one_chars _ _ s1 Hs Os1).
  rewrite (forallb_weaken _ _ g2 Hd D2).
  rewrite (opt_one_chars _ _ s2 Hs Os2).
  rewrite (forallb_weaken _ _ g3 Hd D3).
  rewrite !andb_true_r.
  destruct Hcc as [-> | (sign & c3 & s0 & -> & Osg & Dc & _ & Os0)]; [reflexivity|].
  rewrite !forallb_app.
  rewrite (opt_one_chars _ _ sign (Hc "+"%char eq_refl) Osg).
  rewrite (forallb_weaken _ _ c3 Hd Dc).
  now rewrite (opt_one_chars _ _ s0 Hs Os0).
Qed.

Lemma classify_blank raw : classify raw = Blank -> Py.strip raw = [].
Proof.
  unfold classify. destruct (Py.strip raw) as [|c t]; [reflexivity|].
  simpl truthy. simpl negb.
  destruct (is_likely_phone_number (c :: t)); [discriminate|].
  destruct (is_name_line (c :: t) (lower (c :: t))); discriminate.
Qed.

Lemma keywords_stripped : Forall (fun kw => Py.strip kw = kw) frequency_keywords.
Proof. unfold frequency_keywords. repeat constructor. Qed.

(** With no number-and-keyword match on the way, the scan stops at the
    first keyword the line contains. *)
Lemma scan_first_keyword (l f0 kw : text) (after : list text) : forall before,
  (forall k, In k (before ++ [kw]) -> re_search true (freq_num_pattern k) l = None) ->
  (forall k, In k before -> Py.contains k l = false) ->
  Py.contains kw l = true ->
  scan_frequency (before ++ kw :: after) l f0 = Ok kw.
Proof.
  induction before as [|k before IH]; intros Hnum Hno Hkw; cbn [app scan_frequency].
  - rewrite (Hnum kw (or_introl eq_refl)). now rewrite Hkw.
  - rewrite (Hnum k (or_introl eq_refl)), (Hno k (or_introl eq_refl)).
    apply IH; [|intros k' Hk'; apply Hno; now right | exact Hkw].
    intros k' Hk'. apply Hnum. now right.
Qed.

End LoopFacts.

(* ================================================================== *)
(** ** The claims of the specification *)
(* ================================================================== *)

Import Py PyFacts ReFacts PatternFacts LoopFacts.

(** Two inputs of the specification's own list of examples. *)
Example amoxicillin_twice_a_day :
  parse_medicine_details (unlines [lit "Amoxicillin"; lit "2 tablets twice a day"]) =
  Ok [mkRecord "Amoxicillin" "2 tablet(s)" "twice a day"].
Proof. vm_compute. reflexivity. Qed.

Example phone_line_after_name :
  parse_medicine_details (unlines [lit "CallDoctor"; lit "+1-800-555-1234"]) =
  Ok [sentinel].
Proof. vm_compute. reflexivity. Qed.

(** C1 (the code departs from the claim).  The detail line "500 mg" holds
    a number followed by white space and a dosage unit, yet the record made
    for it has the dosage "Not specified", not "500 mg": [group(2)] of the
    dosage pattern is the fraction group of [number_pattern], not the unit,
    so neither test of lines 102-105 succeeds. *)
Theorem C1_dosage_groups_shifted :
  parse_medicine_details (unlines [lit "Amoxicillin"; lit "500 mg"]) =
  Ok [mkRecord "Amoxicillin" "Not specified" "Not specified"].
Proof. vm_compute. reflexivity. Qed.

(** The number-and-keyword branch on "2 times a day": the test
    ["times" in group(2)] is applied to the fraction group of
    [number_pattern], which is [None], and the parser ends in a
    TypeError. *)
Example frequency_scan_raises :
  parse_medicine_details (unlines [lit "Amoxicillin"; lit "2 times a day"]) =
  Raise TypeError.
Proof. vm_compute. reflexivity. Qed.

(** C2, as the claim states it, fails: in "1.5 daily" the number 1.5 is
    immediately followed by the first keyword, "daily", and the frequency
    is the bare keyword "daily", not "1.5 daily": the number is put in
    front only of a matched text that holds "times". *)
Lemma C2_counterexample :
  (exists m, re_search true (freq_num_pattern "daily") "1.5 daily" = Some m /\
             group m 1 = Some (lit "1.5") /\ group m 3 = Some (lit "daily")) /\
  extract_frequency "1.5 daily" = Ok (lit "daily") /\
  parse_medicine_details (unlines [lit "Amoxicillin"; lit "1.5 daily"]) =
  Ok [mkRecord "Amoxicillin" "1.5" "daily"].
Proof.
  split; [|split].
  - eexists. split; [vm_compute; reflexivity|]. split; reflexivity.
  - vm_compute. reflexivity.
  - vm_compute. reflexivity.
Qed.

(** C2 (amended).  On a detail line [raw], with lower-case form [l] and no
    triplet of integers, the scan walks the keyword list in its order: if
    up to and including the keyword [kw] no keyword has a number
    immediately followed by it or by "times a day" in [l], no keyword
    before [kw] occurs in [l] and [kw] does, then the frequency is [kw],
    whatever the keywords after it, and a pending name gets a record with
    that frequency. *)
Theorem C2_first_keyword_wins
  (pending raw l kw : text) (before after : list text) (meds : list MedicineRecord) :
  pending <> [] ->
  classify raw = DetailLine l ->
  frequency_keywords = before ++ kw :: after ->
  re_search false xyz_pattern l = None ->
  (forall k, In k (before ++ [kw]) -> re_search true (freq_num_pattern k) l = None) ->
  (forall k, In k before -> Py.contains k l = false) ->
  Py.contains kw l = true ->
  extract_frequency l = Ok kw /\
  exists d,
    process_line (Some pending, meds) raw =
    Ok (None, meds ++ [mkRecord (Py.strip pending) d kw]).
Proof.
  intros Hp K Ek Hx Hnum Hno Hkw.
  assert (Ef : extract_frequency l = Ok kw).
  { unfold extract_frequency. rewrite Hx, Ek. now apply scan_first_keyword. }
  split; [exact Ef|].
  destruct (extract_dosage_ok (Some pending) l) as [d Hd].
  exists (Py.strip d). rewrite process_line_classify, K. unfold detail_line. cbn [fst].
  rewrite Hd, Ef. cbn [bind]. unfold emit. cbn [fst snd].
  destruct pending as [|x p]; [congruence|]. cbn [truthy strip_opt bind].
  assert (Hs : Py.strip kw = kw).
  { pose proof keywords_stripped as F. rewrite Forall_forall in F. apply F.
    rewrite Ek. apply in_or_app. right. now left. }
  now rewrite Hs.
Qed.

(** The detail line "2 tablets twice a day" met with the pending name
    "Amoxicillin": "daily" and "once a day" do not occur, "twice a day"
    does. *)
Lemma C2_witness :
  extract_frequency "2 tablets twice a day" = Ok (lit "twice a day") /\
  exists d,
    process_line (Some (lit "Amoxicillin"), []) "2 tablets twice a day" =
    Ok (None, [] ++ [mkRecord (Py.strip "Amoxicillin") d "twice a day"]).
Proof.
  apply (C2_first_keyword_wins "Amoxicillin" "2 tablets twice a day"
           "2 tablets twice a day" "twice a day"
           [lit "daily"; lit "once a day"]
           (skipn 3 frequency_keywords) []).
  - discriminate.
  - reflexivity.
  - reflexivity.
  - reflexivity.
  - intros k [<- | [<- | [<- | []]]]; reflexivity.
  - intros k [<- | [<- | []]]; reflexivity.
  - reflexivity.
Defined.

(** C3, as the claim states it, fails: the result is not the record with
    dosage "500 mg" and frequency "Morning: 1, Afternoon: 1, Night: 0". *)
Lemma C3_counterexample :
  parse_medicine_details (unlines [lit "Paracetamol 500 mg"; lit "1-0-1"]) <>
  Ok [mkRecord "Paracetamol" "500 mg" "Morning: 1, Afternoon: 1, Night: 0"].
Proof. vm_compute. discriminate. Qed.

(** C3 (amended).  Parsing "Paracetamol 500 mg", line feed, "1-0-1"
    returns exactly one record: name "Paracetamol", the dosage "1" found on
    the detail line, and the frequency "Morning: 1, Afternoon: 0, Night: 1",
    the three integers in their order. *)
Theorem C3_paracetamol :
  parse_medicine_details (unlines [lit "Paracetamol 500 mg"; lit "1-0-1"]) =
  Ok [mkRecord "Paracetamol" "1" "Morning: 1, Afternoon: 0, Night: 1"].
Proof. vm_compute. reflexivity. Qed.

(** C4, as the claim states it, fails: the detail line "take 1-0-1x" holds
    the three integers 1, 0 and 1 separated by hyphens, and the record made
    for it has the frequency "Not specified", because the last integer is
    followed by a letter and so does not end at a word boundary. *)
Lemma C4_counterexample :
  classify "take 1-0-1x" = DetailLine "take 1-0-1x" /\
  (lit "take 1-0-1x" =
     lit "take " ++ lit "1" ++ "-"%char :: lit "0" ++ "-"%char :: lit "1" ++ lit "x" /\
   digits "1" /\ digits "0") /\
  process_line (Some (lit "Paracetamol"), []) "take 1-0-1x" =
  Ok (None, [mkRecord "Paracetamol" "1" "Not specified"]).
Proof. repeat split; vm_compute; reflexivity. Qed.

(** C4 (amended).  A detail line [raw] met with a pending name, whose
    lower-case form [l] holds three integers separated by hyphens, the
    first starting and the third ending at a word boundary, makes a record
    whose frequency is "Morning: a, Afternoon: b, Night: c", where [a],
    [b], [c] are, in this order and as written, the integers of the
    leftmost such triplet of [l]. *)
Theorem C4_triplet_frequency (pending raw l : text) (meds : list MedicineRecord) :
  pending <> [] ->
  classify raw = DetailLine l ->
  (exists pre a b c, triplet_at l pre a b c) ->
  exists pre a b c d,
    triplet_at l pre a b c /\
    (forall pre' a' b' c', triplet_at l pre' a' b' c' -> length pre <= length pre') /\
    process_line (Some pending, meds) raw =
    Ok (None,
        meds ++ [mkRecord (Py.strip pending) d
                   ("Morning: " +++ a +++ ", Afternoon: " +++ b +++ ", Night: " +++ c)]).
Proof.
  intros Hp K (pre0 & a0 & b0 & c0 & w1 & w2 & w3 & w4 & post & El & Da & Na & Db & Nb &
               Dc & Nc & S1 & S2 & S3 & S4 & Hs & He).
  destruct (xyz_complete (lastc None pre0) a0 w1 w2 b0 w3 w4 c0 post
              Da Na Db Nb Dc Nc S1 S2 S3 S4 Hs He) as [m0 Hm0].
  destruct (search_from_found false xyz_pattern pre0 _ None m0 Hm0) as [m Hm].
  rewrite <- El in Hm.
  destruct (search_from_leftmost false xyz_pattern l None m Hm)
    as (pre & t' & Et & Hat & Hmin).
  destruct (xyz_sound _ m (match_at_in _ _ _ _ _ Hat))
    as (a & v1 & v2 & b & v3 & v4 & c & Er & Da' & Na' & Db' & Nb' & Dc' & Nc' &
        V1 & V2 & V3 & V4 & Hs' & He' & Hc).
  simpl in Er, Hs', Hc.
  destruct (extract_dosage_ok (Some pending) l) as [d Hd].
  exists pre, a, b, c, (Py.strip d). split; [|split].
  - exists v1, v2, v3, v4, (rest m). rewrite Et, Er. now repeat split.
  - intros pre' a' b' c' (u1 & u2 & u3 & u4 & post' & El' & Da2 & Na2 & Db2 & Nb2 &
                          Dc2 & Nc2 & U1 & U2 & U3 & U4 & Hs2 & He2).
    destruct (Nat.le_gt_cases (length pre) (length pre')) as [L | L]; [exact L|].
    destruct (xyz_complete (lastc None pre') a' u1 u2 b' u3 u4 c' post'
                Da2 Na2 Db2 Nb2 Dc2 Nc2 U1 U2 U3 U4 Hs2 He2) as [m2 Hm2].
    rewrite (match_at_none _ _ _ _ (Hmin pre' _ El' L)) in Hm2. contradiction.
  - rewrite process_line_classify, K. unfold detail_line. cbn [fst].
    rewrite Hd. cbn [bind]. unfold extract_frequency.
    unfold re_search. rewrite Hm. unfold group. rewrite Hc. cbn [lookup Nat.eqb fstr bind].
    unfold emit. cbn [fst snd]. destruct pending as [|x p]; [congruence|].
    cbn [truthy strip_opt bind]. now rewrite (strip_triplet a b c Dc' Nc').
Qed.

(** A detail line "1-0-1" met with the pending name "Paracetamol". *)
Lemma C4_witness :
  exists pre a b c d,
    triplet_at "1-0-1" pre a b c /\
    (forall pre' a' b' c', triplet_at "1-0-1" pre' a' b' c' -> length pre <= length pre') /\
    process_line (Some (lit "Paracetamol"), []) "1-0-1" =
    Ok (None,
        [] ++ [mkRecord (Py.strip "Paracetamol") d
                 ("Morning: " +++ a +++ ", Afternoon: " +++ b +++ ", Night: " +++ c)]).
Proof.
  apply (C4_triplet_frequency "Paracetamol" "1-0-1" "1-0-1" []).
  - discriminate.
  - reflexivity.
  - exists [], (lit "1"), (lit "0"), (lit "1"), [], [], [], [], [].
    repeat split; discriminate.
Defined.

(** C5, as the claim states it, fails: the text made of one space is not
    empty, its only line gives no record, and the parser returns the empty
    list, not the sentinel record. *)
Lemma C5_counterexample :
  lit " " <> [] /\
  loop (None, []) (Py.split nl " ") = Ok (None, []) /\
  parse_medicine_details " " = Ok [] /\
  parse_medicine_details " " <> Ok [sentinel].
Proof. repeat split; vm_compute; discriminate. Qed.

(** C5 (amended).  For every input text that is not empty after trimming
    (it holds a character that is not white space), if the loop over its
    lines ends with no record, the parser returns the sentinel record and
    nothing else. *)
Theorem C5_sentinel_on_failure (t : text) (current : option text) :
  Py.strip t <> [] ->
  loop (None, []) (Py.split nl t) = Ok (current, []) ->
  parse_medicine_details t = Ok [sentinel].
Proof.
  intros Ht Hl. unfold parse_medicine_details. rewrite Hl. cbn [bind snd].
  destruct (Py.strip t); [congruence | reflexivity].
Qed.

(** The text "hello": one line that is neither a name nor paired with one. *)
Lemma C5_witness : parse_medicine_details "hello" = Ok [sentinel].
Proof.
  apply (C5_sentinel_on_failure "hello" None).
  - vm_compute. discriminate.
  - vm_compute. reflexivity.
Defined.

(** C6.  For every input text that is empty or made of white space only,
    the parser returns the empty list of records (and so no sentinel). *)
Theorem C6_blank_text (t : text) :
  spaces t -> parse_medicine_details t = Ok [].
Proof.
  intros Ht. unfold parse_medicine_details.
  rewrite (loop_blank (None, []) (Py.split nl t) (split_spaces nl t Ht)).
  cbn [bind snd]. now rewrite (strip_spaces t Ht).
Qed.

(** A text of spaces, a tab and two line feeds. *)
Lemma C6_witness :
  parse_medicine_details (lit " " ++ nl :: "009"%char :: nl :: lit "  ") = Ok [].
Proof. apply C6_blank_text. reflexivity. Defined.

(** C7.  (1) The records the loop makes are, one for one and in order,
    the pairs of a pending name and the next detail line that the assembler
    of the specification makes from the lines: each record has the name of
    its pair and the dosage and frequency extracted from the detail line of
    its pair.  (2) Of two name lines in a row the first leaves no record:
    its pending name is overwritten by the second.  (3) A name line at the
    end of the input leaves no record either. *)
Theorem C7_one_name_one_detail :
  (forall lines current meds,
      loop (None, []) lines = Ok (current, meds) ->
      Forall2 record_of meds (assemble AwaitingName (map classify lines))) /\
  (forall st raw1 raw2 n1 n2 lines,
      classify raw1 = NameLine n1 -> classify raw2 = NameLine n2 ->
      loop st (raw1 :: raw2 :: lines) = loop (Some n2, snd st) lines) /\
  (forall st raw n,
      classify raw = NameLine n -> loop st [raw] = Ok (Some n, snd st)).
Proof.
  split; [|split].
  - intros lines current meds H.
    destruct (loop_refines lines None [] current meds I H) as (new & -> & F).
    simpl. eapply Forall2_impl; [|exact F]. now intros r p [R _].
  - intros st raw1 raw2 n1 n2 lines K1 K2. cbn [loop].
    rewrite process_line_classify, K1. cbn [bind].
    rewrite process_line_classify, K2. reflexivity.
  - intros st raw n K. cbn [loop]. rewrite process_line_classify, K. reflexivity.
Qed.

(** Two name lines, a detail line and a last name line: one record, for
    the second name. *)
Lemma C7_witness :
  Forall2 record_of
    [mkRecord "Ibuprofen" "2 tablet(s)" "twice a day"]
    (assemble AwaitingName
       (map classify [lit "Amoxicillin"; lit "Ibuprofen";
                      lit "2 tablets twice a day"; lit "Cetirizine"])).
Proof.
  apply (proj1 C7_one_name_one_detail
           [lit "Amoxicillin"; lit "Ibuprofen"; lit "2 tablets twice a day"; lit "Cetirizine"]
           (Some (lit "Cetirizine"))).
  vm_compute. reflexivity.
Defined.

(** C8.  In every list the parser returns, every record has a non-empty
    name; and the sentinel record is in the list only when it is the whole
    list, the text is not blank and the loop made no record. *)
Theorem C8_names_not_empty (t : text) (recs : list MedicineRecord) :
  parse_medicine_details t = Ok recs ->
  Forall (fun r => name r <> []) recs /\
  (In sentinel recs ->
   recs = [sentinel] /\ Py.strip t <> [] /\
   exists current, loop (None, []) (Py.split nl t) = Ok (current, [])).
Proof.
  unfold parse_medicine_details.
  destruct (loop (None, []) (Py.split nl t)) as [[current meds]|e] eqn:L;
    cbn [bind snd]; [|discriminate].
  destruct (loop_refines _ None [] current meds I L) as (new & -> & F). simpl in *.
  assert (G : Forall (fun r => name r <> [] /\ frequency r <> []) new).
  { clear L. remember (assemble AwaitingName (map classify (Py.split nl t))) as ps eqn:Eps.
    clear Eps. induction F as [|r p new ps' (_ & Hn & Hf) _ IH]; constructor; auto. }
  destruct new as [|r new].
  - destruct (Py.strip t) as [|c s] eqn:E; intros H; injection H as <-.
    + split; [constructor | contradiction].
    + split; [repeat constructor; discriminate|].
      intros _. split; [reflexivity|]. split; [discriminate | now exists current].
  - intros H. injection H as <-. split.
    + eapply Forall_impl; [|exact G]. now intros r' [Hn _].
    + intros Hin. rewrite Forall_forall in G. destruct (G sentinel Hin) as [_ Hf].
      now destruct Hf.
Qed.

(** The text "hello", for which the sentinel record is returned. *)
Lemma C8_witness :
  Forall (fun r => name r <> []) [sentinel] /\
  (In sentinel [sentinel] ->
   [sentinel] = [sentinel] /\ Py.strip "hello" <> [] /\
   exists current, loop (None, []) (Py.split nl "hello") = Ok (current, [])).
Proof. apply (C8_names_not_empty "hello" [sentinel]). vm_compute. reflexivity. Defined.



(** C9, as the claim states it, fails, whichever way "its content matches
    the shape" is read.  Read of the whole line: "Call 123-456-7890 now" is
    excluded and is not of the phone-number shape.  Read of a part of the
    line: "1234567890x" holds a piece of the phone-number shape and is not
    excluded (it is handled as a detail line), because the last digit is
    followed by a letter. *)
Lemma C9_counterexample :
  (classify "Call 123-456-7890 now" = Phone /\
   ~ phone_shape "Call 123-456-7890 now") /\
  ((exists pre w post, lit "1234567890x" = pre ++ w ++ post /\ phone_shape w) /\
   classify "1234567890x" = DetailLine "1234567890x").
Proof.
  split; split.
  - vm_compute. reflexivity.
  - intros H. apply phone_shape_chars in H. vm_compute in H. discriminate.
  - exists [], (lit "1234567890"), (lit "x"). split; [reflexivity|].
    exists [], (lit "1234567890"). split; [reflexivity|]. split; [now left|].
    exists [], (lit "123"), [], [], (lit "456"), [], (lit "7890").
    repeat split; now left.
  - vm_compute. reflexivity.
Qed.

(** C9 (amended).  A line is excluded from further processing exactly when
    its trimmed content holds, anywhere, a piece of the phone-number shape
    (an optional ['+'], one to three digits and an optional separator, all
    optional; then groups of 3, 3 and 4 digits, the first possibly in
    parentheses, with at most one hyphen, dot or white space in each gap)
    whose last digit is not followed by a word character.  Such a line
    leaves the loop state as it was; any other non-blank line is handled as
    a name line or as a detail line. *)
Theorem C9_phone_lines_skipped (raw : text) (st : loop_state) :
  (classify raw = Phone <-> has_phone (Py.strip raw)) /\
  (classify raw = Phone -> process_line st raw = Ok st) /\
  (Py.strip raw <> [] -> ~ has_phone (Py.strip raw) ->
   (exists n, classify raw = NameLine n /\ process_line st raw = Ok (Some n, snd st)) \/
   (exists l, classify raw = DetailLine l /\ process_line st raw = detail_line st l)).
Proof.
  assert (P : classify raw = Phone <-> has_phone (Py.strip raw)).
  { rewrite classify_phone, phone_iff. split; [now intros [_ H]|].
    intros H. split; [now apply has_phone_not_nil | exact H]. }
  split; [exact P|]. split.
  - intros K. now rewrite process_line_classify, K.
  - intros Hne Hno. rewrite process_line_classify.
    destruct (classify raw) as [| | n | l] eqn:K.
    + now apply classify_blank in K.
    + destruct Hno. now apply P.
    + left. now exists n.
    + right. now exists l.
Qed.

(** The line "+1-800-555-1234" met with a pending name. *)
Lemma C9_witness :
  process_line (Some (lit "CallDoctor"), []) "+1-800-555-1234" =
  Ok (Some (lit "CallDoctor"), []).
Proof.
  apply (proj1 (proj2 (C9_phone_lines_skipped "+1-800-555-1234"
                         (Some (lit "CallDoctor"), [])))).
  vm_compute. reflexivity.
Defined.

(** C10, as the claim states it, fails: "Take 100 200 1000mg" holds the
    groups "100 200 1000", and the filter does not discard it, because the
    last digit is followed by a letter; the line is taken as a name line
    and becomes the pending name. *)
Lemma C10_counterexample :
  (exists pre w post,
      lit "Take 100 200 1000mg" = pre ++ w ++ post /\ local_number w) /\
  is_likely_phone_number "Take 100 200 1000mg" = false /\
  process_line (None, []) "Take 100 200 1000mg" =
  Ok (Some (lit "Take 100 200 1000mg"), []).
Proof.
  split; [|split].
  - exists (lit "Take "), (lit "100 200 1000"), (lit "mg"). split; [reflexivity|].
    exists [], (lit "100"), [], (lit " "), (lit "200"), (lit " "), (lit "1000").
    repeat split; try (now left); right; now exists " "%char.
  - vm_compute. reflexivity.
  - vm_compute. reflexivity.
Qed.

(** C10 (amended).  Every line whose trimmed content holds anywhere, as a
    part of it, groups of 3, 3 and 4 digits (the first possibly in
    parentheses, at most one hyphen, dot or white space in each gap) whose
    last digit is not followed by a word character is discarded by the
    phone-number filter: it leaves the pending name and the records as they
    were. *)
Theorem C10_phone_digits_anywhere (raw : text) (st : loop_state) :
  has_local_number (Py.strip raw) ->
  is_likely_phone_number (Py.strip raw) = true /\
  classify raw = Phone /\
  process_line st raw = Ok st.
Proof.
  intros (pre & w & post & E & L & B).
  assert (H : has_phone (Py.strip raw)).
  { exists pre, w, post. split; [exact E|]. split; [now apply local_number_phone | exact B]. }
  assert (K : classify raw = Phone).
  { apply classify_phone. split; [now apply has_phone_not_nil | now apply phone_iff]. }
  split; [now apply phone_iff|]. split; [exact K|].
  now rewrite process_line_classify, K.
Qed.

(** The dosage-bearing line "Take 100 200 1000 mg" met with a pending
    name. *)
Lemma C10_witness :
  is_likely_phone_number (Py.strip "Take 100 200 1000 mg") = true /\
  classify "Take 100 200 1000 mg" = Phone /\
  process_line (Some (lit "Aspirin"), []) "Take 100 200 1000 mg" =
  Ok (Some (lit "Aspirin"), []).
Proof.
  apply (C10_phone_digits_anywhere "Take 100 200 1000 mg" (Some (lit "Aspirin"), [])).
  exists (lit "Take "), (lit "100 200 1000"), (lit " mg"). split; [reflexivity|]. split.
  - exists [], (lit "100"), [], (lit " "), (lit "200"), (lit " "), (lit "1000").
    repeat split; try (now left); right; now exists " "%char.
  - reflexivity.
Defined.

(* ================================================================== *)
(** ** Further facts about the loop, the patterns and the report *)
(* ================================================================== *)

Module MoreFacts.

Lemma bind_assoc {A B C : Type} (o : outcome A) (f : A -> outcome B) (g : B -> outcome C) :
  bind (bind o f) g = bind o (fun a => bind (f a) g).
Proof. now destruct o. Qed.

(** The loop over two lists of lines, one after the other. *)
Lemma loop_app : forall l1 st l2,
  loop st (l1 ++ l2) = (let* st' := loop st l1 in loop st' l2).
Proof.
  induction l1 as [|raw l1 IH]; intros st l2; [reflexivity|].
  cbn [app loop]. rewrite bind_assoc.
  destruct (process_line st raw) as [st'|e]; cbn [bind]; [apply IH | reflexivity].
Qed.

Lemma classify_strip raw : classify (strip raw) = classify raw.
Proof. unfold classify. now rewrite strip_idem. Qed.

Lemma process_line_strip st raw : process_line st (strip raw) = process_line st raw.
Proof. now rewrite !process_line_classify, classify_strip. Qed.

(** The records already made are neither read nor changed by a turn of
    the loop. *)
Lemma process_line_frame cur meds raw :
  process_line (cur, meds) raw =
  (let* st := process_line (cur, []) raw in Ok (fst st, meds ++ snd st)).
Proof.
  rewrite !process_line_classify.
  destruct (classify raw) as [| | n | l]; cbn [bind fst snd]; try now rewrite app_nil_r.
  unfold detail_line. cbn [fst].
  destruct (extract_dosage cur l) as [d|e]; cbn [bind]; [|reflexivity].
  destruct (extract_frequency l) as [f|e]; cbn [bind]; [|reflexivity].
  unfold emit. cbn [fst snd].
  destruct cur as [n|]; cbn [bind fst snd]; [|now rewrite app_nil_r].
  destruct (truthy n); cbn [bind fst snd]; [|now rewrite app_nil_r].
  destruct (strip_opt d) as [d'|e]; cbn [bind fst snd]; reflexivity.
Qed.

Lemma loop_frame : forall lines cur meds,
  loop (cur, meds) lines =
  (let* st := loop (cur, []) lines in Ok (fst st, meds ++ snd st)).
Proof.
  induction lines as [|raw lines IH]; intros cur meds; cbn [loop].
  - cbn [bind fst snd]. now rewrite app_nil_r.
  - rewrite process_line_frame, bind_assoc.
    destruct (process_line (cur, []) raw) as [[c1 m1]|e]; cbn [bind fst snd]; [|reflexivity].
    rewrite (IH c1 (meds ++ m1)), (IH c1 m1), bind_assoc.
    destruct (loop (c1, []) lines) as [[c2 m2]|e]; cbn [bind fst snd]; [|reflexivity].
    now rewrite app_assoc.
Qed.

Lemma split_not_nil sep s : split sep s <> [].
Proof.
  destruct s as [|c t]; simpl; [discriminate|].
  destruct (Ascii.eqb c sep); [discriminate|].
  destruct (split sep t); discriminate.
Qed.

(** [(a + sep + b).split(sep) == a.split(sep) + b.split(sep)] *)
Lemma split_app sep (a b : text) :
  split sep (a ++ sep :: b) = split sep a ++ split sep b.
Proof.
  induction a as [|c a IH]; cbn [app split].
  - now rewrite Ascii.eqb_refl.
  - destruct (Ascii.eqb c sep); [now rewrite IH|].
    rewrite IH. destruct (split sep a) as [|h r] eqn:E; [now apply split_not_nil in E|].
    reflexivity.
Qed.

(** The parts of a split text hold characters of the text only, and no
    separator. *)
Lemma split_parts sep (s : text) :
  Forall (fun l => incl l s /\ ~ In sep l) (split sep s).
Proof.
  induction s as [|c t IH]; cbn [split].
  - constructor; [|constructor]. split; [apply incl_refl | intros []].
  - assert (W : Forall (fun l => incl l (c :: t) /\ ~ In sep l) (split sep t)).
    { eapply Forall_impl; [|exact IH]. intros l [Hi Hn]. split; [|exact Hn].
      now apply incl_tl. }
    destruct (Ascii.eqb c sep) eqn:E.
    + constructor; [|exact W]. split; [intros x [] | intros []].
    + destruct (split sep t) as [|h r] eqn:S; [now apply split_not_nil in S|].
      inversion W as [|? ? [Hi Hn] W']; subst. constructor; [|exact W'].
      split.
      * intros x [<- | Hx]; [now left | now apply Hi].
      * intros [<- | Hx]; [now rewrite Ascii.eqb_refl in E | now apply Hn].
Qed.

(** The assembler makes at most one pair for two lines. *)
Lemma assemble_length : forall ks s,
  2 * length (assemble s ks) <=
  length ks + match s with HaveName _ => 1 | AwaitingName => 0 end.
Proof.
  induction ks as [|k ks IH]; intros s; cbn [assemble length].
  - destruct s; lia.
  - destruct k as [| | n | d].
    + specialize (IH s). lia.
    + specialize (IH s). lia.
    + specialize (IH (HaveName n)). cbn in IH. destruct s; lia.
    + destruct s as [|n]; cbn [length].
      * specialize (IH AwaitingName). cbn in IH. lia.
      * specialize (IH AwaitingName). cbn in IH. lia.
Qed.

(** The pairs the assembler makes take their name from the state it
    starts in or from a name line, and their detail line from the lines. *)
Lemma assemble_origin : forall ks s n d,
  In (n, d) (assemble s ks) ->
  (s = HaveName n \/ In (NameLine n) ks) /\ In (DetailLine d) ks.
Proof.
  induction ks as [|k ks IH]; intros s n d H; cbn [assemble] in H; [contradiction|].
  assert (Step : forall s', In (n, d) (assemble s' ks) ->
            (s' = HaveName n \/ In (NameLine n) (k :: ks)) /\ In (DetailLine d) (k :: ks)).
  { intros s' H'. destruct (IH _ _ _ H') as [[E | E] D].
    - split; [now left | now right].
    - split; [right; now right | now right]. }
  destruct k as [| | n' | d'].
  - now apply Step.
  - now apply Step.
  - destruct (Step _ H) as [[E | E] D]; split; try assumption.
    + injection E as <-. right. now left.
    + now right.
  - destruct s as [|n0].
    + now apply Step.
    + destruct H as [E | H].
      * injection E as <- <-. split; [now left | now left].
      * destruct (Step _ H) as [[E | E] D]; [discriminate|]. split; [now right | assumption].
Qed.

Lemma Forall2_length_eq {A B : Type} (R : A -> B -> Prop) l1 l2 :
  Forall2 R l1 l2 -> length l1 = length l2.
Proof. induction 1; simpl; congruence. Qed.

Lemma Forall2_left {A B : Type} (R : A -> B -> Prop) (P : A -> Prop) l1 l2 :
  (forall a b, In b l2 -> R a b -> P a) -> Forall2 R l1 l2 -> Forall P l1.
Proof.
  intros H F. induction F as [|a b l1 l2 Hab _ IH]; constructor.
  - apply (H a b); [now left | exact Hab].
  - apply IH. intros a' b' Hb. apply H. now right.
Qed.

Lemma has_digit_app_r (w t : text) : has_digit t -> has_digit (w ++ t).
Proof. intros (c & Hc & D). exists c. split; [apply in_or_app; now right | exact D]. Qed.

Lemma has_digit_incl (s t : text) : incl s t -> has_digit s -> has_digit t.
Proof. intros Hi (c & Hc & D). exists c. split; [now apply Hi | exact D]. Qed.

Lemma has_digit_span (s k : mstate) (w : text) :
  span s k w -> has_digit (rest k) -> has_digit (rest s).
Proof. intros [E _] H. rewrite E. now apply has_digit_app_r. Qed.

Lemma digits_has_digit (w t : text) : digits w -> 1 <= length w -> has_digit (w ++ t).
Proof.
  intros D L. destruct w as [|d w]; [simpl in L; lia|].
  unfold digits in D. simpl in D. apply andb_prop in D as [D _].
  exists d. split; [now left | exact D].
Qed.

(** A match of [number_pattern] starts at a digit. *)
Lemma number_needs_digit ic n s m :
  In m (run ic number_pattern n s) -> has_digit (rest s).
Proof.
  unfold number_pattern, plus. intros H.
  apply in_run_seq in H as (k & H1 & H). apply in_run_seq in H as (k2 & H2 & _).
  apply in_run_wordb in H1 as [-> _].
  apply in_run_rep in H2 as (w & [E _] & _ & F & L & _).
  rewrite E. now apply digits_has_digit.
Qed.

Lemma seq_needs_digit_first ic r1 r2 n s m :
  (forall n s m, In m (run ic r1 n s) -> has_digit (rest s)) ->
  In m (run ic (Seq r1 r2) n s) -> has_digit (rest s).
Proof. intros H1 H. apply in_run_seq in H as (k & Hk & _). eauto. Qed.

Lemma seq_needs_digit_later ic r1 r2 n s m :
  (forall n s m, In m (run ic r2 n s) -> has_digit (rest s)) ->
  In m (run ic (Seq r1 r2) n s) -> has_digit (rest s).
Proof.
  intros H2 H. apply in_run_seq in H as (k & Hk & H).
  destruct (run_span ic r1 n s k Hk) as [w Sp].
  eapply has_digit_span; [exact Sp | eauto].
Qed.

Lemma grp_needs_digit ic r n s m :
  (forall n s m, In m (run ic r n s) -> has_digit (rest s)) ->
  In m (run ic (Grp r) n s) -> has_digit (rest s).
Proof. intros H1 H. apply in_run_grp in H as (k & Hk & _). eauto. Qed.

Lemma grp_number_needs_digit ic n s m :
  In m (run ic (Grp number_pattern) n s) -> has_digit (rest s).
Proof. apply grp_needs_digit. intros. eapply number_needs_digit; eassumption. Qed.

Lemma dosage_needs_digit ic n s m :
  In m (run ic dosage_pattern n s) -> has_digit (rest s).
Proof.
  unfold dosage_pattern. intros H. apply in_run_alt in H as [H | H].
  - eapply seq_needs_digit_first; [|exact H]. intros. eapply grp_number_needs_digit; eassumption.
  - eapply seq_needs_digit_later; [|exact H]. intros n1 s1 m1 H1.
    eapply seq_needs_digit_later; [|exact H1]. intros n2 s2 m2 H2.
    eapply seq_needs_digit_later; [|exact H2]. intros. eapply grp_number_needs_digit; eassumption.
Qed.

Lemma num_only_needs_digit ic n s m :
  In m (run ic num_only_pattern n s) -> has_digit (rest s).
Proof.
  unfold num_only_pattern. apply seq_needs_digit_first.
  intros. eapply grp_number_needs_digit; eassumption.
Qed.

Lemma freq_num_needs_digit ic kw n s m :
  In m (run ic (freq_num_pattern kw) n s) -> has_digit (rest s).
Proof.
  unfold freq_num_pattern. apply seq_needs_digit_first.
  intros. eapply grp_number_needs_digit; eassumption.
Qed.

Lemma xyz_needs_digit s m :
  In m (run false xyz_pattern 1 s) -> has_digit (rest s).
Proof.
  intros H. apply xyz_sound in H as (a & w1 & w2 & b & w3 & w4 & c & E & Da & Na & _).
  rewrite E. apply digits_has_digit; [exact Da|]. destruct a; simpl; [congruence | lia].
Qed.

(** A pattern that needs a digit is not found in a text without one. *)
Lemma search_needs_digit ic r (t : text) :
  (forall s m, In m (run ic r 1 s) -> has_digit (rest s)) ->
  ~ has_digit t -> re_search ic r t = None.
Proof.
  intros Hr Ht. unfold re_search.
  destruct (search_from ic r None t) as [m|] eqn:E; [|reflexivity].
  apply search_from_some in E as (pre & t' & -> & E). apply match_at_in, Hr in E.
  destruct Ht. now apply has_digit_app_r.
Qed.

Lemma lower_digit (c : ascii) : isdecimal (lower_char c) = true -> isdecimal c = true.
Proof. destruct c as [[] [] [] [] [] [] [] []]; vm_compute; congruence. Qed.

Lemma has_digit_lower (s : text) : has_digit (lower s) -> has_digit s.
Proof.
  intros (c & Hc & D). unfold lower in Hc. apply in_map_iff in Hc as (x & <- & Hx).
  exists x. split; [exact Hx | now apply lower_digit].
Qed.

Lemma lstrip_incl (s : text) : incl (lstrip s) s.
Proof.
  induction s as [|c t IH]; simpl; [apply incl_refl|].
  destruct (isspace c); [now apply incl_tl | apply incl_refl].
Qed.

Lemma strip_incl (s : text) : incl (strip s) s.
Proof.
  unfold strip, rstrip. intros c Hc. apply in_rev in Hc.
  apply lstrip_incl in Hc. apply in_rev in Hc. now apply lstrip_incl.
Qed.

Lemma classify_detail raw l : classify raw = DetailLine l -> l = lower (strip raw).
Proof.
  unfold classify.
  destruct (negb (truthy (strip raw))); [discriminate|].
  destruct (is_likely_phone_number (strip raw)); [discriminate|].
  destruct (is_name_line (strip raw) (lower (strip raw))); [discriminate|].
  now intros H; injection H as <-.
Qed.

Lemma detail_no_digit raw l :
  ~ has_digit raw -> classify raw = DetailLine l -> ~ has_digit l.
Proof.
  intros Hr K Hl. apply classify_detail in K as ->. apply has_digit_lower in Hl.
  apply Hr. eapply has_digit_incl; [apply strip_incl | exact Hl].
Qed.

(** What the scan returns is the value it started with or a keyword. *)
Lemma scan_frequency_no_number l : forall kws f0,
  (forall kw, In kw kws -> re_search true (freq_num_pattern kw) l = None) ->
  exists f, scan_frequency kws l f0 = Ok f /\ (f = f0 \/ In f kws).
Proof.
  induction kws as [|kw kws IH]; intros f0 H; cbn [scan_frequency].
  - exists f0. split; [reflexivity | now left].
  - rewrite (H kw (or_introl eq_refl)). destruct (contains kw l).
    + exists kw. split; [reflexivity | right; now left].
    + destruct (IH f0) as (f & -> & Hf); [intros k Hk; apply H; now right|].
      exists f. split; [reflexivity|]. destruct Hf; [now left | right; now right].
Qed.

Lemma extract_dosage_no_digit current l :
  ~ has_digit l -> extract_dosage current l = Ok (Some (lit "Not specified")).
Proof.
  intros H. unfold extract_dosage.
  rewrite (search_needs_digit true dosage_pattern l); [|intros; eapply dosage_needs_digit; eassumption | exact H].
  rewrite (search_needs_digit false num_only_pattern l); [reflexivity | | exact H].
  intros; eapply num_only_needs_digit; eassumption.
Qed.

Lemma extract_frequency_no_digit l :
  ~ has_digit l ->
  exists f, extract_frequency l = Ok f /\
            (f = lit "Not specified" \/ In f frequency_keywords).
Proof.
  intros H. unfold extract_frequency.
  rewrite (search_needs_digit false xyz_pattern l); [|apply xyz_needs_digit | exact H].
  apply scan_frequency_no_number. intros kw _.
  apply search_needs_digit; [|exact H]. intros; eapply freq_num_needs_digit; eassumption.
Qed.

Lemma process_line_no_digit st raw :
  ~ has_digit raw -> exists st', process_line st raw = Ok st'.
Proof.
  intros H. rewrite process_line_classify.
  destruct (classify raw) as [| | n | l] eqn:K; eauto.
  pose proof (detail_no_digit raw l H K) as Hl.
  unfold detail_line. rewrite (extract_dosage_no_digit (fst st) l Hl). cbn [bind].
  destruct (extract_frequency_no_digit l Hl) as (f & -> & _). cbn [bind].
  unfold emit. destruct (fst st) as [n|]; [|eauto].
  destruct (truthy n); cbn [strip_opt bind]; eauto.
Qed.

Lemma loop_no_digit : forall lines st,
  Forall (fun raw => ~ has_digit raw) lines -> exists st', loop st lines = Ok st'.
Proof.
  induction lines as [|raw lines IH]; intros st F; cbn [loop]; [eauto|].
  inversion F as [|? ? Hr F']; subst.
  destruct (process_line_no_digit st raw Hr) as [st' ->]. cbn [bind]. now apply IH.
Qed.

Lemma split_no_digit (t : text) :
  ~ has_digit t -> Forall (fun raw => ~ has_digit raw) (Py.split nl t).
Proof.
  intros H. eapply Forall_impl; [|apply split_parts].
  intros l [Hi _] Hl. apply H. eapply has_digit_incl; eassumption.
Qed.

Lemma strip_keyword (f : text) :
  f = lit "Not specified" \/ In f frequency_keywords -> Py.strip f = f.
Proof.
  intros [-> | H]; [reflexivity|].
  pose proof keywords_stripped as F. rewrite Forall_forall in F. now apply F.
Qed.

(** The scan raises nothing but the TypeError of the test of line 121,
    met when the number of a number-and-keyword match has no fraction. *)
Lemma scan_frequency_raise l e : forall kws f0,
  scan_frequency kws l f0 = Raise e ->
  e = TypeError /\
  exists kw m, In kw kws /\ re_search true (freq_num_pattern kw) l = Some m /\
               group m 2 = None.
Proof.
  induction kws as [|kw kws IH]; intros f0 H; cbn [scan_frequency] in H; [discriminate|].
  assert (Later : forall f, scan_frequency kws l f = Raise e ->
            e = TypeError /\
            exists kw' m, In kw' (kw :: kws) /\
                          re_search true (freq_num_pattern kw') l = Some m /\
                          group m 2 = None).
  { intros f Hf. destruct (IH f Hf) as (-> & kw' & m & Hk & Hs & Hg).
    split; [reflexivity|]. exists kw', m. split; [now right | now split]. }
  destruct (re_search true (freq_num_pattern kw) l) as [m|] eqn:S.
  - destruct (group m 2) as [g|] eqn:G; cbn [times_in bind] in H.
    + destruct (contains _ g); [now apply Later in H|].
      destruct (contains kw l); [discriminate | now apply Later in H].
    + injection H as <-. split; [reflexivity|]. exists kw, m. split; [now left | now split].
  - destruct (contains kw l); [discriminate | now apply Later in H].
Qed.

Lemma process_line_raise st raw e :
  process_line st raw = Raise e ->
  e = TypeError /\
  exists kw m,
    In kw frequency_keywords /\
    classify raw = DetailLine (lower (Py.strip raw)) /\
    re_search false xyz_pattern (lower (Py.strip raw)) = None /\
    re_search true (freq_num_pattern kw) (lower (Py.strip raw)) = Some m /\
    group m 2 = None.
Proof.
  rewrite process_line_classify.
  destruct (classify raw) as [| | n | l] eqn:K; try discriminate.
  pose proof (classify_detail raw l K) as El. subst l.
  unfold detail_line.
  destruct (extract_dosage_ok (fst st) (lower (Py.strip raw))) as [d ->]. cbn [bind].
  destruct (extract_frequency (lower (Py.strip raw))) as [f|e'] eqn:F; cbn [bind].
  - unfold emit. destruct (fst st) as [n|]; [|discriminate].
    destruct (truthy n); cbn [strip_opt bind]; discriminate.
  - intros H. injection H as ->. unfold extract_frequency in F.
    destruct (re_search false xyz_pattern (lower (Py.strip raw))) eqn:X; [discriminate|].
    apply scan_frequency_raise in F as (-> & kw & m & Hk & Hs & Hg).
    split; [reflexivity|]. exists kw, m. now repeat split.
Qed.

Lemma loop_raise e : forall lines st,
  loop st lines = Raise e ->
  exists st' raw, In raw lines /\ process_line st' raw = Raise e.
Proof.
  induction lines as [|raw lines IH]; intros st H; cbn [loop] in H; [discriminate|].
  destruct (process_line st raw) as [st'|e'] eqn:P; cbn [bind] in H.
  - apply IH in H as (st2 & raw2 & Hin & H). exists st2, raw2. split; [now right | exact H].
  - injection H as ->. exists st, raw. split; [now left | exact P].
Qed.

Lemma dot_eq ic (x : ascii) : chr_eq ic "." x = true -> x = "."%char.
Proof.
  destruct ic; [|apply chr_eq_false].
  destruct x as [[] [] [] [] [] [] [] []]; vm_compute; congruence.
Qed.

(** A match of [number_pattern] sets no group or its own group, the
    fraction: a dot followed by digits. *)
Lemma number_caps ic n s k :
  In k (run ic number_pattern n s) ->
  exists ds,
    digits ds /\ ds <> [] /\
    ((caps k = caps s /\ span s k ds) \/
     exists fs, digits fs /\ fs <> [] /\
                caps k = (n, "."%char :: fs) :: caps s /\
                span s k (ds ++ "."%char :: fs)).
Proof.
  unfold number_pattern, plus. intros H.
  apply in_run_seq in H as (k1 & H1 & H). simpl ngroups in H.
  apply in_run_seq in H as (k2 & H2 & H). simpl ngroups in H.
  apply in_run_seq in H as (k3 & H3 & H). simpl ngroups in H.
  apply in_run_wordb in H1 as [-> _]. apply in_run_wordb in H as [-> _].
  apply in_run_rep in H2 as (ds & Sd & Cd & Fd & Ld & _).
  exists ds. split; [exact Fd|]. split; [now apply nonempty_length|].
  apply in_run_opt in H3 as [H3 | ->].
  - right. apply in_run_grp in H3 as (k4 & H4 & ->).
    apply in_run_seq in H4 as (k5 & H5 & H4). simpl ngroups in H4.
    apply in_run_chr in H5 as (x & Ex & Sx & Cx). apply dot_eq in Ex. subst x.
    apply in_run_rep in H4 as (fs & Sf & Cf & Ff & Lf & _).
    pose proof (span_trans _ _ _ _ _ Sx Sf) as Sxf.
    rewrite (consumed_span _ _ _ Sxf).
    exists fs. split; [exact Ff|]. split; [now apply nonempty_length|]. split.
    + simpl. rewrite Cf, Cx, Cd. repeat f_equal. lia.
    + destruct (span_trans _ _ _ _ _ Sd Sxf) as [E P]. split; assumption.
  - left. now split.
Qed.

(** In a match of the number-and-keyword pattern, group 2 is the fraction
    of the number or [None]. *)
Lemma freq_num_group2 kw pv t m :
  In m (run true (freq_num_pattern kw) 1 (MState pv t [])) ->
  group m 2 = None \/ exists fs, digits fs /\ group m 2 = Some ("."%char :: fs).
Proof.
  unfold freq_num_pattern. intros H.
  apply in_run_seq in H as (k & H1 & H).
  apply in_run_grp in H1 as (k' & H1 & ->).
  apply run_caps in H as (new & C & F). simpl caps in C.
  assert (G : group m 2 = lookup 2 (caps k')).
  { unfold group. rewrite C, lookup_older; [reflexivity|].
    eapply Forall_impl; [|exact F]. simpl. intros; lia. }
  rewrite G.
  apply number_caps in H1 as (ds & _ & _ & [[-> _] | (fs & Ff & _ & -> & _)]).
  - now left.
  - right. exists fs. now split.
Qed.

Lemma times_not_in_fraction (fs : text) :
  digits fs -> contains "times" ("."%char :: fs) = false.
Proof.
  intros D. destruct (contains "times" ("."%char :: fs)) eqn:E; [|reflexivity].
  apply contains_spec in E as (pre & post & E).
  assert (Hin : In "t"%char ("."%char :: fs)).
  { rewrite E. apply in_or_app. right. now left. }
  destruct Hin as [Hin | Hin]; [discriminate|].
  unfold digits in D. rewrite forallb_forall in D. now apply D in Hin.
Qed.

(** What the scan returns is the value it started with or a keyword: the
    branch of line 122 is never taken. *)
Lemma scan_frequency_value l : forall kws f0 f,
  scan_frequency kws l f0 = Ok f -> f = f0 \/ In f kws.
Proof.
  induction kws as [|kw kws IH]; intros f0 f H; cbn [scan_frequency] in H.
  - injection H as <-. now left.
  - assert (Later : forall f1, scan_frequency kws l f1 = Ok f -> f1 = f0 ->
                               f = f0 \/ In f (kw :: kws)).
    { intros f1 Hf ->. destruct (IH f0 f Hf); [now left | right; now right]. }
    destruct (re_search true (freq_num_pattern kw) l) as [m|] eqn:S.
    + apply search_from_some in S as (pre & t' & _ & S). apply match_at_in in S.
      destruct (freq_num_group2 kw _ _ m S) as [G | (fs & Ff & G)]; rewrite G in H;
        cbn [times_in bind] in H; [discriminate|].
      rewrite (times_not_in_fraction fs Ff) in H.
      destruct (contains kw l); [injection H as <-; right; now left | eauto].
    + destruct (contains kw l); [injection H as <-; right; now left | eauto].
Qed.

(** The three forms of a frequency. *)
Lemma extract_frequency_value l f :
  extract_frequency l = Ok f ->
  f = lit "Not specified" \/ In f frequency_keywords \/
  exists pre a b c, triplet_at l pre a b c /\ f = triplet_text a b c.
Proof.
  unfold extract_frequency.
  destruct (re_search false xyz_pattern l) as [m|] eqn:X.
  - intros H. injection H as <-. right. right.
    apply search_from_some in X as (pre & t' & -> & X).
    destruct (xyz_sound _ m (match_at_in _ _ _ _ _ X))
      as (a & v1 & v2 & b & v3 & v4 & c & Er & Da & Na & Db & Nb & Dc & Nc &
          V1 & V2 & V3 & V4 & Hs & He & Hc).
    simpl in Er, Hs, Hc. exists pre, a, b, c. split.
    + exists v1, v2, v3, v4, (rest m). rewrite Er. now repeat split.
    + unfold group. rewrite Hc. reflexivity.
  - intros H. apply scan_frequency_value in H as [-> | H]; [now left | right; now left].
Qed.

Lemma count_digits_app (a b : text) :
  count_digits (a ++ b) = count_digits a + count_digits b.
Proof. unfold count_digits. now rewrite filter_app, length_app. Qed.

Lemma count_digits_all (w : text) : digits w -> count_digits w = length w.
Proof.
  unfold digits, count_digits. induction w as [|c w IH]; simpl; [reflexivity|].
  intros H. apply andb_prop in H as [Hc Hw]. rewrite Hc. simpl. now rewrite IH.
Qed.

Lemma has_phone_digits (line : text) : has_phone line -> 10 <= count_digits line.
Proof.
  intros (pre & w & post & -> & (cc & loc & -> & _ & L) & _).
  destruct L as (lp & g1 & rp & s1 & g2 & s2 & g3 & -> &
                 _ & D1 & L1 & _ & _ & D2 & L2 & _ & D3 & L3).
  rewrite !count_digits_app, (count_digits_all g1 D1), (count_digits_all g2 D2),
    (count_digits_all g3 D3). lia.
Qed.

Lemma cls_intro ic p n pv x t cs :
  p x = true ->
  In (MState (Some x) t cs) (run ic (Cls p) n (MState pv (x :: t) cs)).
Proof. intros. apply in_run_cls. exists x. now repeat split. Qed.

Lemma name_pattern_iff (line : text) :
  is_some (re_match false name_pattern line) = true <-> name_shape line.
Proof.
  unfold re_match, name_shape. split.
  - destruct (match_at false name_pattern None line) as [m|] eqn:E; [|discriminate].
    intros _. apply match_at_in in E. unfold name_pattern, plus in E.
    apply in_run_seq in E as (k1 & H1 & E). apply in_run_seq in E as (k2 & H2 & E).
    apply in_run_seq in E as (k3 & H3 & E).
    simpl in H1. destruct H1 as [<- | []].
    apply in_run_cls in H2 as (x & Hx & [E2 _] & _). simpl in E2.
    apply in_run_rep in H3 as (w & [E3 _] & _ & F & L & _).
    exists x, (rest k2). split; [exact E2|]. split; [exact Hx|].
    rewrite E3. split; [destruct w; simpl in *; [lia | discriminate]|].
    rewrite forallb_app, F. simpl in E.
    destruct (rest k3) as [|y [|z u]]; try contradiction; [reflexivity|].
    destruct (Ascii.eqb y "010") eqn:Y; [|contradiction].
    apply Ascii.eqb_eq in Y. subst y. reflexivity.
  - intros (x & t & -> & Hx & Ht & F).
    destruct (in_match_at false name_pattern None (x :: t) (MState (lastc (Some x) t) [] []))
      as [m ->]; [|reflexivity].
    assert (R : forall N, In (MState (lastc (Some x) t) [] [])
                             (run false (Rep 1 None is_name_char) N (MState (Some x) t []))).
    { intros N. pose proof (rep_intro false 1 None is_name_char N (Some x) t [] [] F) as R.
      rewrite app_nil_r in R. apply R; [|exact I]. destruct t; simpl; [congruence | lia]. }
    unfold name_pattern, plus.
    eapply seq_intro; [simpl; left; reflexivity|].
    eapply seq_intro; [apply cls_intro; exact Hx|].
    eapply seq_intro; [apply R|]. simpl. now left.
Qed.

Lemma existsb_false_iff {A : Type} (p : A -> bool) (l : list A) :
  existsb p l = false <-> forall x, In x l -> p x = false.
Proof.
  induction l as [|a l IH]; simpl.
  - split; [intros _ x [] | reflexivity].
  - rewrite orb_false_iff, IH. split.
    + intros [Ha H] x [<- | Hx]; auto.
    + intros H. split; [apply H; now left | intros x Hx; apply H; now right].
Qed.

Lemma name_shape_not_nil (line : text) : name_shape line -> line <> [].
Proof. intros (x & t & -> & _). discriminate. Qed.

(** When a line is a name line. *)
Lemma classify_name_iff (raw : text) :
  (exists n, classify raw = NameLine n) <->
  name_shape (Py.strip raw) /\ keyword_free (Py.strip raw) /\ ~ has_phone (Py.strip raw).
Proof.
  unfold classify, is_name_line, keyword_free.
  rewrite <- phone_iff, <- name_pattern_iff, <- existsb_false_iff.
  destruct (Py.strip raw) as [|c s] eqn:E; cbn [truthy negb].
  - split; [intros [n H]; discriminate | now intros [H _]].
  - destruct (is_likely_phone_number (c :: s)).
    + split; [intros [n H]; discriminate | intros (_ & _ & H); now destruct H].
    + destruct (is_some (re_match false name_pattern (c :: s))); cbn [andb].
      * destruct (existsb _ frequency_keywords); cbn [negb].
        -- split; [intros [n H]; discriminate | intros (_ & H & _); discriminate].
        -- split; [intros _; repeat split; discriminate | intros _; eauto].
      * split; [intros [n H]; discriminate | intros (H & _); discriminate].
Qed.

Lemma classify_name_value raw n :
  classify raw = NameLine n -> n = derive_name (Py.strip raw).
Proof.
  unfold classify.
  destruct (negb (truthy (Py.strip raw))); [discriminate|].
  destruct (is_likely_phone_number (Py.strip raw)); [discriminate|].
  destruct (is_name_line (Py.strip raw) (lower (Py.strip raw))); [|discriminate].
  now intros H; injection H as <-.
Qed.

(** The name a name line leaves pending starts with the upper-case letter
    the line starts with. *)
Lemma derive_name_head (line : text) :
  name_shape line -> exists x u, derive_name line = x :: u /\ isupper_az x = true.
Proof.
  intros (x & t & -> & Hx & _). unfold derive_name, re_sub_del. cbn [sub_del].
  rewrite (noise_upper x t Hx).
  destruct (strip_head x (sub_del false (Cls is_noise) (Some x) t 0) (upper_not_space x Hx))
    as [u ->].
  destruct (strip_unit_head x dosage_keywords u Hx) as [u' ->]. now exists x, u'.
Qed.

Lemma classify_name_head raw n :
  classify raw = NameLine n -> exists x u, n = x :: u /\ isupper_az x = true.
Proof.
  intros K. pose proof (classify_name_value raw n K) as ->.
  apply derive_name_head. apply classify_name_iff. eauto.
Qed.

Lemma strip_ok (s : text) : first_ok s = true -> last_ok s = true -> Py.strip s = s.
Proof.
  unfold last_ok. intros H1 H2. apply strip_fixed.
  - destruct s as [|h s]; [discriminate|]. simpl in *.
    now destruct (isspace h).
  - destruct (rev s) as [|h r]; [discriminate|]. simpl in *.
    now destruct (isspace h).
Qed.

Lemma first_ok_app (a b : text) : first_ok a = true -> first_ok (a ++ b) = true.
Proof. destruct a; [discriminate | exact (fun H => H)]. Qed.

Lemma last_ok_app (a b : text) : last_ok b = true -> last_ok (a ++ b) = true.
Proof. unfold last_ok. rewrite rev_app_distr. apply first_ok_app. Qed.

Lemma digits_first_ok (ds : text) : digits ds -> ds <> [] -> first_ok ds = true.
Proof.
  intros D N. destruct ds as [|d ds]; [congruence|].
  unfold digits in D. simpl in D. apply andb_prop in D as [D _].
  simpl. now rewrite (digit_not_space d D).
Qed.

Lemma digits_last_ok (ds : text) : digits ds -> ds <> [] -> last_ok ds = true.
Proof.
  intros D N. unfold last_ok. apply digits_first_ok.
  - unfold digits. now rewrite forallb_rev.
  - intros E. apply N. rewrite <- (rev_involutive ds), E. reflexivity.
Qed.

Lemma number_text_ok (num : text) :
  number_text num -> first_ok num = true /\ last_ok num = true.
Proof.
  intros (ds & D & N & [-> | (fs & Df & Nf & ->)]).
  - split; [now apply digits_first_ok | now apply digits_last_ok].
  - split; [apply first_ok_app; now apply digits_first_ok|].
    apply last_ok_app. change ("."%char :: fs) with (["."%char] ++ fs).
    apply last_ok_app. now apply digits_last_ok.
Qed.

(** [strip] leaves a dosage of one of the forms as it is. *)
Lemma strip_dosage_form (d : text) : dosage_form d -> Py.strip d = d.
Proof.
  intros [-> | [(num & Hn & Hd) | (ds & fs & D & N & Df & Nf & ->)]].
  - reflexivity.
  - destruct (number_text_ok num Hn) as [F L].
    destruct Hd as [-> | [-> | ->]]; apply strip_ok; unfold cat;
      try assumption; try (now apply first_ok_app); now apply last_ok_app.
  - apply strip_ok; unfold cat.
    + rewrite <- app_assoc. apply first_ok_app. now apply digits_first_ok.
    + apply last_ok_app. change (lit " " ++ "."%char :: fs) with ((lit " " ++ ["."%char]) ++ fs).
      apply last_ok_app. now apply digits_last_ok.
Qed.

(** The groups a match sets are numbered from the next number on, below
    the next number plus the number of groups of the pattern. *)
Lemma run_caps_bounds ic r : forall n s m,
  In m (run ic r n s) ->
  exists new, caps m = new ++ caps s /\
              Forall (fun kv => n <= fst kv < n + ngroups r) new.
Proof.
  induction r as [| c | p | r1 IH1 r2 IH2 | r1 IH1 r2 IH2 | r IH | lo hi p | r IH | | |];
    intros n s m H; cbn [ngroups].
  - apply in_run_eps in H as ->. now exists [].
  - apply in_run_chr in H as (x & _ & _ & C). now exists [].
  - apply in_run_cls in H as (x & _ & _ & C). now exists [].
  - apply in_run_seq in H as (k & H1 & H2).
    apply IH1 in H1 as (n1 & C1 & F1). apply IH2 in H2 as (n2 & C2 & F2).
    exists (n2 ++ n1). split; [now rewrite C2, C1, app_assoc|].
    apply Forall_app. split; (eapply Forall_impl; [|eassumption]); simpl; intros; lia.
  - apply in_run_alt in H as [H | H].
    + apply IH1 in H as (n1 & C1 & F1). exists n1. split; [assumption|].
      eapply Forall_impl; [|exact F1]. simpl. intros; lia.
    + apply IH2 in H as (n2 & C2 & F2). exists n2. split; [assumption|].
      eapply Forall_impl; [|exact F2]. simpl. intros; lia.
  - apply in_run_opt in H as [H | ->]; [eauto|]. now exists [].
  - apply in_run_rep in H as (w & _ & C & _). now exists [].
  - apply in_run_grp in H as (k & H & ->). apply IH in H as (n1 & C1 & F1).
    exists ((n, consumed s k) :: n1). simpl. split; [now rewrite C1|].
    constructor; [simpl; lia|].
    eapply Forall_impl; [|exact F1]. simpl. intros; lia.
  - apply in_run_wordb in H as [-> _]. now exists [].
  - simpl in H. destruct (prev s); [contradiction|].
    destruct H as [<- | []]. now exists [].
  - simpl in H. destruct (rest s) as [|x [|y t]]; try contradiction.
    + destruct H as [<- | []]. now exists [].
    + destruct (Ascii.eqb x "010"); [|contradiction].
      destruct H as [<- | []]. now exists [].
Qed.

Lemma lookup_none (k : nat) (cs : list (nat * text)) :
  Forall (fun kv => fst kv <> k) cs -> lookup k cs = None.
Proof.
  induction 1 as [|[j v] cs Hj _ IH]; simpl; [reflexivity|].
  simpl in Hj. destruct (Nat.eqb_spec j k); [contradiction | exact IH].
Qed.

(** What a match of [Grp number_pattern] at group [n] gives: group [n] is
    a number, group [n + 1] its fraction or nothing. *)
Lemma grp_number_caps ic n s k :
  In k (run ic (Grp number_pattern) n s) ->
  exists num, number_text num /\
    (caps k = (n, num) :: caps s \/
     exists ds fs, digits ds /\ ds <> [] /\ digits fs /\ fs <> [] /\
                   num = ds ++ "."%char :: fs /\
                   caps k = (n, num) :: (S n, "."%char :: fs) :: caps s).
Proof.
  intros H. apply in_run_grp in H as (k' & H & ->).
  apply number_caps in H as (ds & D & N & [[C Sp] | (fs & Df & Nf & C & Sp)]);
    rewrite (consumed_span _ _ _ Sp); cbn [caps]; rewrite C.
  - exists ds. split; [exists ds; repeat split; try assumption; now left | now left].
  - exists (ds ++ "."%char :: fs). split.
    + exists ds. repeat split; try assumption. right. now exists fs.
    + right. now exists ds, fs.
Qed.

(** The groups of a match of the dosage pattern: groups 3 and 4 are never
    both set, and groups 1 and 2 are both set only as a number with a
    fraction and that fraction. *)
Lemma dosage_match_groups pv t m :
  In m (run true dosage_pattern 1 (MState pv t [])) ->
  (group m 3 = None \/ group m 4 = None) /\
  (group m 1 = None \/ group m 2 = None \/
   exists ds fs, digits ds /\ ds <> [] /\ digits fs /\ fs <> [] /\
                 group m 1 = Some (ds ++ "."%char :: fs) /\
                 group m 2 = Some ("."%char :: fs)).
Proof.
  unfold dosage_pattern. intros H. apply in_run_alt in H as [H | H].
  - apply in_run_seq in H as (k & H1 & H).
    apply grp_number_caps in H1 as (num & Hn & Hk). cbn [caps] in Hk.
    apply run_caps_bounds in H as (new & C & F).
    assert (F3 : Forall (fun kv => fst kv = 3) new).
    { eapply Forall_impl; [|exact F]. cbn. intros; lia. }
    unfold group. rewrite C. split.
    + right. apply lookup_none. apply Forall_app. split.
      * eapply Forall_impl; [|exact F3]. cbn. intros; lia.
      * destruct Hk as [-> | (ds & fs & _ & _ & _ & _ & _ & ->)];
          repeat constructor; cbn; lia.
    + rewrite !lookup_older by (eapply Forall_impl; [|exact F3]; cbn; intros; lia).
      destruct Hk as [-> | (ds & fs & D & N & Df & Nf & -> & ->)]; cbn.
      * right. now left.
      * right. right. now exists ds, fs.
  - apply run_caps_bounds in H as (new & C & F). cbn [caps] in C. rewrite app_nil_r in C.
    unfold group. rewrite C. split.
    + left. apply lookup_none. eapply Forall_impl; [|exact F]. cbn. intros; lia.
    + left. apply lookup_none. eapply Forall_impl; [|exact F]. cbn. intros; lia.
Qed.

(** In a match of the bare-number pattern group 1 is a number. *)
Lemma num_only_group1_number pv t m :
  In m (run false num_only_pattern 1 (MState pv t [])) ->
  exists num, number_text num /\ group m 1 = Some num.
Proof.
  unfold num_only_pattern. intros H. apply in_run_seq in H as (k & H1 & H).
  apply grp_number_caps in H1 as (num & Hn & Hk).
  apply run_caps in H as (new & C & F).
  exists num. split; [exact Hn|]. unfold group. rewrite C, lookup_older.
  - destruct Hk as [-> | (ds & fs & _ & _ & _ & _ & _ & ->)]; reflexivity.
  - eapply Forall_impl; [|exact F]. cbn. intros; lia.
Qed.

Lemma truthy_opt_some (o : option text) :
  truthy_opt o = true -> exists s, o = Some s.
Proof. destruct o; [eauto | discriminate]. Qed.

(** The forms of what [extract_dosage] returns. *)
Lemma extract_dosage_form current l d :
  extract_dosage current l = Ok (Some d) -> dosage_form d.
Proof.
  unfold extract_dosage.
  destruct (re_search true dosage_pattern l) as [m|] eqn:S.
  - apply search_from_some in S as (pre & t' & _ & S). apply match_at_in in S.
    destruct (dosage_match_groups _ _ m S) as [G34 G12].
    destruct (truthy_opt (group m 1) && truthy_opt (group m 2)) eqn:T12.
    + apply andb_prop in T12 as [T1 T2].
      destruct G12 as [G | [G | (ds & fs & D & N & Df & Nf & G1 & G2)]];
        try (rewrite G in *; discriminate).
      rewrite G1, G2. intros H. injection H as <-. right. right. now exists ds, fs.
    + destruct (truthy_opt (group m 3) && truthy_opt (group m 4)) eqn:T34.
      * apply andb_prop in T34 as [T3 T4].
        destruct G34 as [G | G]; rewrite G in *; discriminate.
      * intros H. injection H as <-. now left.
  - destruct (re_search false num_only_pattern l) as [m|] eqn:S'.
    + apply search_from_some in S' as (pre & t' & _ & S'). apply match_at_in in S'.
      destruct (num_only_group1_number _ _ m S') as (num & Hn & ->).
      destruct (truthy_opt current || contains "tablet" l || contains "cap" l).
      * destruct (contains "tablet" l); cbn [add_suffix].
        -- intros H. injection H as <-. right. left. exists num. split; [exact Hn|].
           right. now left.
        -- destruct (contains "cap" l); cbn [add_suffix]; intros H; injection H as <-;
             right; left; exists num; (split; [exact Hn|]); [right; now right | now left].
      * intros H. injection H as <-. now left.
    + intros H. injection H as <-. now left.
Qed.

Lemma split_single (sep : ascii) (l : text) : ~ In sep l -> Py.split sep l = [l].
Proof.
  induction l as [|c l IH]; intros H; cbn [Py.split]; [reflexivity|].
  destruct (Ascii.eqb c sep) eqn:E.
  - apply Ascii.eqb_eq in E. subst c. destruct H. now left.
  - rewrite IH; [reflexivity|]. intros Hin. apply H. now right.
Qed.

Lemma split_line (sep : ascii) (l rest : text) :
  ~ In sep l -> Py.split sep (l ++ sep :: rest) = l :: Py.split sep rest.
Proof. intros H. now rewrite split_app, (split_single sep l H). Qed.

Lemma fold_add_record : forall meds acc,
  fold_left add_record meds acc =
  acc ++ concat (map (fun med => add_record [] med) meds).
Proof.
  induction meds as [|med meds IH]; intros acc; cbn [fold_left map concat].
  - now rewrite app_nil_r.
  - rewrite IH. unfold add_record, cat. cbn [app]. now rewrite <- !app_assoc.
Qed.

Lemma split_line_nl (l rest : text) :
  ~ In nl l -> Py.split nl (l ++ [nl] ++ rest) = l :: Py.split nl rest.
Proof. intros H. change ([nl] ++ rest) with (nl :: rest). now apply split_line. Qed.

Lemma split_field (p f rest : text) :
  ~ In nl p -> ~ In nl f ->
  Py.split nl (p ++ f ++ [nl] ++ rest) = (p ++ f) :: Py.split nl rest.
Proof.
  intros Hp Hf. rewrite app_assoc. apply split_line_nl.
  intros H. apply in_app_or in H as [H | H]; contradiction.
Qed.

Lemma literal_no_nl (s : text) : forallb (fun c => negb (Ascii.eqb c nl)) s = true -> ~ In nl s.
Proof.
  intros H Hin. rewrite forallb_forall in H. apply H in Hin.
  now rewrite Ascii.eqb_refl in Hin.
Qed.

Lemma record_text_lines (med : MedicineRecord) (rest : text) :
  single_line med ->
  Py.split nl (add_record [] med ++ rest) = report_lines med ++ Py.split nl rest.
Proof.
  intros (Hn & Hd & Hf). unfold add_record, report_lines, cat. cbn [app].
  rewrite <- !app_assoc.
  rewrite split_field; [|now apply literal_no_nl | exact Hn].
  rewrite split_field; [|now apply literal_no_nl | exact Hd].
  rewrite split_field; [|now apply literal_no_nl | exact Hf].
  rewrite split_line_nl; [reflexivity | now apply literal_no_nl].
Qed.

(** The lines of the report: a title, a rule, four lines for each record
    and the empty line after the last line feed. *)
Lemma medicine_content_lines (meds : list MedicineRecord) :
  Forall single_line meds ->
  Py.split nl (medicine_content meds) =
  [lit "Medicine Details:"; repeat "="%char 30] ++ flat_map report_lines meds ++ [[]].
Proof.
  intros F. unfold medicine_content. rewrite fold_add_record. unfold cat.
  rewrite <- !app_assoc.
  rewrite split_line_nl; [|now apply literal_no_nl].
  rewrite split_line_nl; [|now apply literal_no_nl].
  cbn [app]. do 2 f_equal.
  induction F as [|med meds Hm _ IH]; cbn [map concat flat_map]; [reflexivity|].
  rewrite (record_text_lines med _ Hm), IH. reflexivity.
Qed.

Lemma report_lines_inj (a b : MedicineRecord) (la lb : list text) :
  report_lines a ++ la = report_lines b ++ lb -> a = b /\ la = lb.
Proof.
  unfold report_lines, cat. cbn [app]. intros H.
  injection H as Hn Hd Hf H.
  destruct a, b; cbn in *. subst. now split.
Qed.

Lemma flat_report_inj : forall a b,
  flat_map report_lines a = flat_map report_lines b -> a = b.
Proof.
  induction a as [|r a IH]; intros [|r' b] H; cbn [flat_map] in H.
  - reflexivity.
  - discriminate.
  - discriminate.
  - apply report_lines_inj in H as [-> H]. f_equal. now apply IH.
Qed.

Lemma sub_del_incl ic r : forall t pv skip, incl (sub_del ic r pv t skip) t.
Proof.
  induction t as [|x t IH]; intros pv skip; cbn [sub_del]; [apply incl_refl|].
  assert (Keep : forall k, incl (x :: sub_del ic r (Some x) t k) (x :: t)).
  { intros k c [<- | Hc]; [now left | right; now apply (IH (Some x) k)]. }
  assert (Drop : forall k, incl (sub_del ic r (Some x) t k) (x :: t)).
  { intros k. apply incl_tl, IH. }
  destruct skip as [|k]; [|apply Drop].
  destruct (match_at ic r pv (x :: t)) as [m|]; [|apply Keep].
  destruct (length (x :: t) - length (rest m)); [apply Keep | apply Drop].
Qed.

Lemma strip_unit_incl : forall units (c : text), incl (strip_unit units c) c.
Proof.
  induction units as [|unit units IH]; intros c; cbn [strip_unit]; [apply incl_refl|].
  destruct (Py.endswith _ _); [|apply IH].
  eapply incl_tran; [apply strip_incl | apply sub_del_incl].
Qed.

(** The pending name is made of characters of its line. *)
Lemma derive_name_incl (line : text) : incl (derive_name line) line.
Proof.
  unfold derive_name. eapply incl_tran; [apply strip_unit_incl|].
  eapply incl_tran; [apply strip_incl | apply sub_del_incl].
Qed.

Lemma digits_no_nl (w : text) : digits w -> ~ In nl w.
Proof.
  intros D H. unfold digits in D. rewrite forallb_forall in D. now apply D in H.
Qed.

Lemma number_text_no_nl (num : text) : number_text num -> ~ In nl num.
Proof.
  intros (ds & D & _ & [-> | (fs & Df & _ & ->)]) H.
  - now apply (digits_no_nl ds).
  - apply in_app_or in H as [H | [H | H]]; [now apply (digits_no_nl ds) | discriminate |
                                           now apply (digits_no_nl fs)].
Qed.

Lemma dosage_form_no_nl (d : text) : dosage_form d -> ~ In nl d.
Proof.
  intros [-> | [(num & Hn & Hd) | (ds & fs & D & _ & Df & _ & ->)]] H.
  - revert H. now apply literal_no_nl.
  - pose proof (number_text_no_nl num Hn) as N.
    destruct Hd as [-> | [-> | ->]]; [contradiction | |];
      apply in_app_or in H as [H | H]; try contradiction;
      revert H; now apply literal_no_nl.
  - unfold cat in H. apply in_app_or in H as [H | H].
    + apply in_app_or in H as [H | [H | H]]; [now apply (digits_no_nl ds) | discriminate |
                                             now apply (digits_no_nl fs)].
    + destruct H as [H | [H | H]]; [discriminate | discriminate | now apply (digits_no_nl fs)].
Qed.

Lemma keywords_no_nl : Forall (fun kw => ~ In nl kw) frequency_keywords.
Proof. unfold frequency_keywords. repeat constructor; now apply literal_no_nl. Qed.

Lemma triplet_text_no_nl (a b c : text) :
  digits a -> digits b -> digits c -> ~ In nl (triplet_text a b c).
Proof.
  intros Da Db Dc H. unfold triplet_text, cat in H.
  repeat (apply in_app_or in H as [H | H]);
    try (revert H; now apply literal_no_nl);
    try (now apply (digits_no_nl a)); try (now apply (digits_no_nl b));
    now apply (digits_no_nl c).
Qed.

Lemma lstrip_keeps (c : ascii) (s : text) :
  In c s -> Py.isspace c = false -> In c (Py.lstrip s).
Proof.
  intros Hin Hc. induction s as [|x s IH]; [contradiction|]. cbn [Py.lstrip].
  destruct (Py.isspace x) eqn:X; [|exact Hin].
  destruct Hin as [-> | Hin]; [congruence | now apply IH].
Qed.

(** [strip] removes white space only. *)
Lemma strip_keeps (c : ascii) (s : text) :
  In c s -> Py.isspace c = false -> In c (Py.strip s).
Proof.
  intros Hin Hc. unfold Py.strip, Py.rstrip. apply in_rev.
  rewrite rev_involutive. apply lstrip_keeps; [|exact Hc].
  apply -> in_rev. now apply lstrip_keeps.
Qed.

(** A line with a colon is no name line. *)
Lemma colon_not_name (raw : text) (n : text) :
  In ":"%char raw -> classify raw <> NameLine n.
Proof.
  intros Hin K.
  assert (S : name_shape (Py.strip raw)) by (apply classify_name_iff; eauto).
  destruct S as (x & t & E & Hx & _ & F).
  pose proof (strip_keeps ":"%char raw Hin eq_refl) as Hs. rewrite E in Hs.
  destruct Hs as [Ex | Hs]; [subst x; discriminate|].
  rewrite forallb_forall in F. apply F in Hs. discriminate.
Qed.

Lemma assemble_no_names : forall ks,
  Forall (fun k => forall n, k <> NameLine n) ks -> assemble AwaitingName ks = [].
Proof.
  induction 1 as [|k ks Hk _ IH]; [reflexivity|]. cbn [assemble].
  destruct k as [| | n | d]; try exact IH. now destruct (Hk n).
Qed.

Lemma report_lines_not_names (med : MedicineRecord) :
  Forall (fun raw => forall n, classify raw <> NameLine n) (report_lines med).
Proof.
  unfold report_lines, cat. repeat constructor; intros n.
  - apply colon_not_name. apply in_or_app. left. vm_compute. intuition.
  - apply colon_not_name. apply in_or_app. left. vm_compute. intuition.
  - apply colon_not_name. apply in_or_app. left. vm_compute. intuition.
  - vm_compute. discriminate.
Qed.

End MoreFacts.

(* ================================================================== *)
(** ** Further properties of the code *)
(* ================================================================== *)

Import MoreFacts.

(** X1.  The parser returns the empty list exactly for a text that is
    empty or made of white space only: any other text gives at least one
    record (or an exception), be it the sentinel. *)
Theorem parse_nil_iff_blank (t : text) :
  parse_medicine_details t = Ok [] <-> spaces t.
Proof.
  unfold parse_medicine_details. split.
  - destruct (loop (None, []) (Py.split nl t)) as [[cur meds]|e]; cbn [bind snd];
      [|discriminate].
    destruct meds as [|r meds]; [|discriminate].
    destruct (Py.strip t) as [|c s] eqn:E; [|discriminate].
    intros _. now apply strip_nil_inv.
  - intros Ht.
    rewrite (loop_blank (None, []) (Py.split nl t) (split_spaces nl t Ht)).
    cbn [bind snd]. now rewrite (strip_spaces t Ht).
Qed.

(** X2.  Every record is made of two lines, a name line and a detail
    line, so apart from the sentinel the parser returns at most half as
    many records as the text has lines. *)
Theorem records_at_most_half_the_lines (t : text) (recs : list MedicineRecord) :
  parse_medicine_details t = Ok recs ->
  recs = [sentinel] \/ 2 * length recs <= length (Py.split nl t).
Proof.
  unfold parse_medicine_details.
  destruct (loop (None, []) (Py.split nl t)) as [[cur meds]|e] eqn:L; cbn [bind snd];
    [|discriminate].
  destruct (loop_refines _ None [] cur meds I L) as (new & -> & F). simpl app.
  apply Forall2_length_eq in F.
  pose proof (assemble_length (map classify (Py.split nl t)) AwaitingName) as B.
  rewrite length_map in B. cbn [asm_of] in F.
  destruct new as [|r new].
  - destruct (Py.strip t); intros H; injection H as <-; [right; simpl; lia | now left].
  - intros H. injection H as <-. right. lia.
Qed.

(** The text "Paracetamol 500 mg", line feed, "1-0-1": one record for
    two lines. *)
Lemma records_at_most_half_the_lines_witness :
  2 * length [mkRecord "Paracetamol" "1" "Morning: 1, Afternoon: 0, Night: 1"] <=
  length (Py.split nl (unlines [lit "Paracetamol 500 mg"; lit "1-0-1"])).
Proof.
  destruct (records_at_most_half_the_lines
              (unlines [lit "Paracetamol 500 mg"; lit "1-0-1"])
              [mkRecord "Paracetamol" "1" "Morning: 1, Afternoon: 0, Night: 1"])
    as [E | L]; [vm_compute; reflexivity | discriminate E | exact L].
Defined.

(** X3.  Parsing composes over a line feed: the loop over [a], line feed,
    [b] is the loop over [a] followed by the loop over [b] started with
    the name left pending by [a]; the records are those of [a] followed by
    those of [b], and they are what the parser returns when there is one. *)
Theorem parsing_composes (a b : text) (cur cur' : option text)
        (m1 m2 : list MedicineRecord) :
  loop (None, []) (Py.split nl a) = Ok (cur, m1) ->
  loop (cur, []) (Py.split nl b) = Ok (cur', m2) ->
  loop (None, []) (Py.split nl (a ++ nl :: b)) = Ok (cur', m1 ++ m2) /\
  (m1 ++ m2 <> [] -> parse_medicine_details (a ++ nl :: b) = Ok (m1 ++ m2)).
Proof.
  intros Ha Hb.
  assert (L : loop (None, []) (Py.split nl (a ++ nl :: b)) = Ok (cur', m1 ++ m2)).
  { rewrite split_app, loop_app, Ha. cbn [bind]. rewrite loop_frame, Hb. reflexivity. }
  split; [exact L|].
  intros Hne. unfold parse_medicine_details. rewrite L. cbn [bind snd].
  destruct (m1 ++ m2); [congruence | reflexivity].
Qed.

(** Two prescriptions of two lines each. *)
Lemma parsing_composes_witness :
  loop (None, [])
       (Py.split nl (unlines [lit "Paracetamol 500 mg"; lit "1-0-1"] ++
                     nl :: unlines [lit "Amoxicillin"; lit "2 tablets twice a day"])) =
  Ok (None, [mkRecord "Paracetamol" "1" "Morning: 1, Afternoon: 0, Night: 1"] ++
            [mkRecord "Amoxicillin" "2 tablet(s)" "twice a day"]) /\
  ([mkRecord "Paracetamol" "1" "Morning: 1, Afternoon: 0, Night: 1"] ++
   [mkRecord "Amoxicillin" "2 tablet(s)" "twice a day"] <> [] ->
   parse_medicine_details
     (unlines [lit "Paracetamol 500 mg"; lit "1-0-1"] ++
      nl :: unlines [lit "Amoxicillin"; lit "2 tablets twice a day"]) =
   Ok ([mkRecord "Paracetamol" "1" "Morning: 1, Afternoon: 0, Night: 1"] ++
       [mkRecord "Amoxicillin" "2 tablet(s)" "twice a day"])).
Proof.
  apply (parsing_composes
           (unlines [lit "Paracetamol 500 mg"; lit "1-0-1"])
           (unlines [lit "Amoxicillin"; lit "2 tablets twice a day"]) None None).
  - vm_compute. reflexivity.
  - vm_compute. reflexivity.
Defined.

(** X4.  A blank line or a line holding a phone number can stand anywhere
    among the lines without changing what the loop does with the others:
    in particular it does not break the pairing of a name with the detail
    line after it. *)
Theorem skipped_lines_are_transparent
        (st : loop_state) (l1 l2 : list text) (raw : text) :
  classify raw = Blank \/ classify raw = Phone ->
  loop st (l1 ++ raw :: l2) = loop st (l1 ++ l2).
Proof.
  intros K. rewrite !loop_app.
  destruct (loop st l1) as [st'|e]; cbn [bind loop]; [|reflexivity].
  rewrite process_line_classify. now destruct K as [-> | ->].
Qed.

(** A phone number between a name and its detail line. *)
Lemma skipped_lines_are_transparent_witness :
  loop (None, []) ([lit "Amoxicillin"] ++ lit "+1-800-555-1234" ::
                   [lit "2 tablets twice a day"]) =
  loop (None, []) ([lit "Amoxicillin"] ++ [lit "2 tablets twice a day"]).
Proof.
  apply (skipped_lines_are_transparent (None, []) [lit "Amoxicillin"]
           [lit "2 tablets twice a day"] "+1-800-555-1234").
  right. vm_compute. reflexivity.
Defined.

(** X5.  White space around a line never matters: the loop does the same
    with the lines as with the lines trimmed. *)
Theorem trimming_lines_changes_nothing (lines : list text) :
  forall st, loop st (map Py.strip lines) = loop st lines.
Proof.
  induction lines as [|raw lines IH]; intros st; [reflexivity|].
  cbn [map loop]. rewrite process_line_strip.
  destruct (process_line st raw) as [st'|e]; cbn [bind]; [apply IH | reflexivity].
Qed.

(** X6.  A text without a decimal digit is always parsed: no exception is
    raised, and every record made (the sentinel apart) has the dosage
    "Not specified" and, as frequency, "Not specified" or a keyword of the
    list. *)
Theorem digit_free_text_is_parsed (t : text) :
  ~ has_digit t ->
  exists recs,
    parse_medicine_details t = Ok recs /\
    Forall (fun r => r = sentinel \/
                     (dosage r = lit "Not specified" /\
                      (frequency r = lit "Not specified" \/
                       In (frequency r) frequency_keywords))) recs.
Proof.
  intros Ht. pose proof (split_no_digit t Ht) as Fl.
  destruct (loop_no_digit (Py.split nl t) (None, []) Fl) as [[cur meds] L].
  unfold parse_medicine_details. rewrite L. cbn [bind snd].
  destruct (loop_refines _ None [] cur meds I L) as (new & E & F). simpl in E. subst meds.
  assert (G : Forall (fun r => dosage r = lit "Not specified" /\
                               (frequency r = lit "Not specified" \/
                                In (frequency r) frequency_keywords)) new).
  { eapply Forall2_left; [|exact F]. intros r [n d] Hp ((_ & dv & f & Ed & Ef & Hd & Hf) & _).
    cbn [fst snd] in *.
    apply assemble_origin in Hp as [_ Hp]. apply in_map_iff in Hp as (raw & K & Hraw).
    rewrite Forall_forall in Fl.
    pose proof (detail_no_digit raw d (Fl raw Hraw) K) as Hl.
    rewrite (extract_dosage_no_digit (Some n) d Hl) in Ed. injection Ed as <-.
    destruct (extract_frequency_no_digit d Hl) as (f' & Ef' & Hf').
    rewrite Ef' in Ef. injection Ef as <-.
    rewrite (strip_keyword f' Hf') in Hf. rewrite Hd, Hf. split; [reflexivity | exact Hf']. }
  destruct new as [|r new].
  - destruct (Py.strip t); eexists; split; try reflexivity; repeat constructor.
  - eexists. split; [reflexivity|]. eapply Forall_impl; [|exact G]. intros; now right.
Qed.

(** The text "Aspirin", line feed, "after food at night". *)
Lemma digit_free_text_is_parsed_witness :
  exists recs,
    parse_medicine_details (unlines [lit "Aspirin"; lit "after food at night"]) = Ok recs /\
    Forall (fun r => r = sentinel \/
                     (dosage r = lit "Not specified" /\
                      (frequency r = lit "Not specified" \/
                       In (frequency r) frequency_keywords))) recs.
Proof.
  apply (digit_free_text_is_parsed (unlines [lit "Aspirin"; lit "after food at night"])).
  intros (c & Hc & D). vm_compute in Hc.
  repeat (destruct Hc as [<- | Hc]; [discriminate D|]). exact Hc.
Defined.

(** X7.  The only exception the parser ends in is the TypeError of line
    121, and only on a text with a detail line that has no triplet and in
    which, for some keyword, a number without fraction is immediately
    followed by the keyword or by "times a day" (group 2 of the match, the
    fraction of the number, is [None]).  In particular [dosage.strip()]
    never fails: [group(1)] of the bare-number pattern is never [None]. *)
Theorem parser_raises_only_type_error (t : text) (e : exn) :
  parse_medicine_details t = Raise e ->
  e = TypeError /\
  exists raw kw m,
    In raw (Py.split nl t) /\ In kw frequency_keywords /\
    classify raw = DetailLine (Py.lower (Py.strip raw)) /\
    re_search false xyz_pattern (Py.lower (Py.strip raw)) = None /\
    re_search true (freq_num_pattern kw) (Py.lower (Py.strip raw)) = Some m /\
    group m 2 = None.
Proof.
  unfold parse_medicine_details.
  destruct (loop (None, []) (Py.split nl t)) as [[cur meds]|e'] eqn:L; cbn [bind snd].
  - destruct meds; [destruct (Py.strip t)|]; discriminate.
  - intros H. injection H as ->.
    apply loop_raise in L as (st & raw & Hin & P).
    apply process_line_raise in P as (-> & kw & m & Hk & K & X & S & G).
    split; [reflexivity|]. exists raw, kw, m. now repeat split.
Qed.

(** The text "Amoxicillin", line feed, "2 times a day". *)
Lemma parser_raises_only_type_error_witness :
  TypeError = TypeError /\
  exists raw kw m,
    In raw (Py.split nl (unlines [lit "Amoxicillin"; lit "2 times a day"])) /\
    In kw frequency_keywords /\
    classify raw = DetailLine (Py.lower (Py.strip raw)) /\
    re_search false xyz_pattern (Py.lower (Py.strip raw)) = None /\
    re_search true (freq_num_pattern kw) (Py.lower (Py.strip raw)) = Some m /\
    group m 2 = None.
Proof.
  apply (parser_raises_only_type_error (unlines [lit "Amoxicillin"; lit "2 times a day"])).
  vm_compute. reflexivity.
Defined.

(** X8.  The frequency of a record the parser returns (the sentinel
    apart) is "Not specified", a keyword of the list, or
    "Morning: a, Afternoon: b, Night: c" for three non-empty runs of
    digits: it is never a number followed by a keyword or by
    "times a day". *)
Theorem frequency_is_keyword_or_triplet (t : text) (recs : list MedicineRecord) :
  parse_medicine_details t = Ok recs ->
  Forall (fun r =>
            r = sentinel \/ frequency r = lit "Not specified" \/
            In (frequency r) frequency_keywords \/
            exists a b c, digits a /\ a <> [] /\ digits b /\ b <> [] /\
                          digits c /\ c <> [] /\ frequency r = triplet_text a b c)
         recs.
Proof.
  unfold parse_medicine_details.
  destruct (loop (None, []) (Py.split nl t)) as [[cur meds]|e] eqn:L; cbn [bind snd];
    [|discriminate].
  destruct (loop_refines _ None [] cur meds I L) as (new & E & F). simpl in E. subst meds.
  assert (G : Forall (fun r =>
            r = sentinel \/ frequency r = lit "Not specified" \/
            In (frequency r) frequency_keywords \/
            exists a b c, digits a /\ a <> [] /\ digits b /\ b <> [] /\
                          digits c /\ c <> [] /\ frequency r = triplet_text a b c) new).
  { eapply Forall2_left; [|exact F]. intros r p _ ((_ & dv & f & _ & Ef & _ & Hf) & _).
    right. apply extract_frequency_value in Ef as [-> | [Hk | (pre & a & b & c & T & ->)]].
    - left. rewrite Hf. reflexivity.
    - right. left. rewrite Hf, strip_keyword; [exact Hk | now right].
    - right. right. destruct T as (w1 & w2 & w3 & w4 & post & _ & Da & Na & Db & Nb &
                                   Dc & Nc & _).
      exists a, b, c. repeat split; try assumption.
      rewrite Hf. unfold triplet_text. now apply strip_triplet. }
  destruct new as [|r new]; [|intros H; injection H as <-; exact G].
  destruct (Py.strip t); intros H; injection H as <-; repeat constructor.
Qed.

(** The text "Paracetamol 500 mg", line feed, "1-0-1". *)
Lemma frequency_is_keyword_or_triplet_witness :
  Forall (fun r =>
            r = sentinel \/ frequency r = lit "Not specified" \/
            In (frequency r) frequency_keywords \/
            exists a b c, digits a /\ a <> [] /\ digits b /\ b <> [] /\
                          digits c /\ c <> [] /\ frequency r = triplet_text a b c)
         [mkRecord "Paracetamol" "1" "Morning: 1, Afternoon: 0, Night: 1"].
Proof.
  apply (frequency_is_keyword_or_triplet
           (unlines [lit "Paracetamol 500 mg"; lit "1-0-1"])).
  vm_compute. reflexivity.
Defined.

(** X9.  A line with fewer than ten decimal digits is never taken for a
    phone number: the filter can discard a line only if it holds ten
    digits or more. *)
Theorem phone_needs_ten_digits (line : text) :
  count_digits line < 10 -> is_likely_phone_number line = false.
Proof.
  intros H. destruct (is_likely_phone_number line) eqn:E; [|reflexivity].
  apply phone_iff, has_phone_digits in E. lia.
Qed.

(** The dosage line "Take 100 200 100 mg" has nine digits. *)
Lemma phone_needs_ten_digits_witness :
  is_likely_phone_number "Take 100 200 100 mg" = false.
Proof. apply phone_needs_ten_digits. vm_compute. lia. Defined.

(** X10.  A line is taken for a name line exactly when, trimmed, it starts
    with a letter A-Z followed by at least one more character, holds only
    letters a-z and A-Z, digits, white space, hyphens, dots and
    exclamation marks, holds no frequency keyword (whatever the case) and
    holds no phone number; the pending name is then derived from the
    trimmed line. *)
Theorem name_line_iff (raw : text) :
  ((exists n, classify raw = NameLine n) <->
   name_shape (Py.strip raw) /\ keyword_free (Py.strip raw) /\
   ~ has_phone (Py.strip raw)) /\
  (forall n, classify raw = NameLine n -> n = derive_name (Py.strip raw)).
Proof.
  split; [apply classify_name_iff | apply classify_name_value].
Qed.

(** X11.  Every record the parser returns, the sentinel apart, has the
    name derived from a name line of the text, and the dosage and the
    frequency extracted from one detail line of the text; and every name
    returned starts with a letter A-Z. *)
Theorem records_come_from_the_text (t : text) (recs : list MedicineRecord) :
  parse_medicine_details t = Ok recs ->
  Forall (fun r =>
            (r = sentinel \/
             exists raw_n raw_d d f,
               In raw_n (Py.split nl t) /\ classify raw_n = NameLine (name r) /\
               In raw_d (Py.split nl t) /\
               classify raw_d = DetailLine (Py.lower (Py.strip raw_d)) /\
               extract_dosage (Some (name r)) (Py.lower (Py.strip raw_d)) = Ok (Some d) /\
               extract_frequency (Py.lower (Py.strip raw_d)) = Ok f /\
               dosage r = Py.strip d /\ frequency r = Py.strip f) /\
            exists x u, name r = x :: u /\ Py.isupper_az x = true)
         recs.
Proof.
  unfold parse_medicine_details.
  destruct (loop (None, []) (Py.split nl t)) as [[cur meds]|e] eqn:L; cbn [bind snd];
    [|discriminate].
  destruct (loop_refines _ None [] cur meds I L) as (new & E & F). simpl in E. subst meds.
  assert (G : Forall (fun r =>
            (r = sentinel \/
             exists raw_n raw_d d f,
               In raw_n (Py.split nl t) /\ classify raw_n = NameLine (name r) /\
               In raw_d (Py.split nl t) /\
               classify raw_d = DetailLine (Py.lower (Py.strip raw_d)) /\
               extract_dosage (Some (name r)) (Py.lower (Py.strip raw_d)) = Ok (Some d) /\
               extract_frequency (Py.lower (Py.strip raw_d)) = Ok f /\
               dosage r = Py.strip d /\ frequency r = Py.strip f) /\
            exists x u, name r = x :: u /\ Py.isupper_az x = true) new).
  { eapply Forall2_left; [|exact F].
    intros r [n l] Hp ((Hn & d & f & Ed & Ef & Hd & Hf) & _). cbn [fst snd] in *.
    apply assemble_origin in Hp as [[Hs | Hn'] Hl]; [discriminate|].
    apply in_map_iff in Hn' as (raw_n & Kn & In_n).
    apply in_map_iff in Hl as (raw_d & Kd & In_d).
    pose proof (classify_detail raw_d l Kd) as El. subst l. rewrite <- Hn in *.
    split.
    - right. exists raw_n, raw_d, d, f. now repeat split.
    - exact (classify_name_head raw_n (name r) Kn). }
  destruct new as [|r new]; [|intros H; injection H as <-; exact G].
  destruct (Py.strip t); intros H; injection H as <-; constructor; [|constructor].
  split; [now left|]. exists "C"%char. eexists. split; reflexivity.
Qed.

(** The text "Paracetamol 500 mg", line feed, "1-0-1". *)
Lemma records_come_from_the_text_witness :
  Forall (fun r =>
            (r = sentinel \/
             exists raw_n raw_d d f,
               In raw_n (Py.split nl (unlines [lit "Paracetamol 500 mg"; lit "1-0-1"])) /\
               classify raw_n = NameLine (name r) /\
               In raw_d (Py.split nl (unlines [lit "Paracetamol 500 mg"; lit "1-0-1"])) /\
               classify raw_d = DetailLine (Py.lower (Py.strip raw_d)) /\
               extract_dosage (Some (name r)) (Py.lower (Py.strip raw_d)) = Ok (Some d) /\
               extract_frequency (Py.lower (Py.strip raw_d)) = Ok f /\
               dosage r = Py.strip d /\ frequency r = Py.strip f) /\
            exists x u, name r = x :: u /\ Py.isupper_az x = true)
         [mkRecord "Paracetamol" "1" "Morning: 1, Afternoon: 0, Night: 1"].
Proof.
  apply (records_come_from_the_text (unlines [lit "Paracetamol 500 mg"; lit "1-0-1"])).
  vm_compute. reflexivity.
Defined.

(** X12.  The dosage of a record the parser returns (the sentinel apart)
    is "Not specified", a number (digits, possibly a dot and digits) alone
    or followed by " tablet(s)" or " capsule(s)", or a number with a
    fraction followed by a space and that same fraction: no other unit is
    ever named in a dosage, and the test of line 104 never succeeds. *)
Theorem dosage_forms (t : text) (recs : list MedicineRecord) :
  parse_medicine_details t = Ok recs ->
  Forall (fun r => r = sentinel \/ dosage_form (dosage r)) recs.
Proof.
  unfold parse_medicine_details.
  destruct (loop (None, []) (Py.split nl t)) as [[cur meds]|e] eqn:L; cbn [bind snd];
    [|discriminate].
  destruct (loop_refines _ None [] cur meds I L) as (new & E & F). simpl in E. subst meds.
  assert (G : Forall (fun r => r = sentinel \/ dosage_form (dosage r)) new).
  { eapply Forall2_left; [|exact F]. intros r p _ ((_ & d & f & Ed & _ & Hd & _) & _).
    right. apply extract_dosage_form in Ed. rewrite Hd, (strip_dosage_form d Ed). exact Ed. }
  destruct new as [|r new]; [|intros H; injection H as <-; exact G].
  destruct (Py.strip t); intros H; injection H as <-; repeat constructor.
Qed.

(** The text "Amoxicillin", line feed, "2.5 mg": the dosage is "2.5 .5". *)
Lemma dosage_forms_witness :
  Forall (fun r => r = sentinel \/ dosage_form (dosage r))
         [mkRecord "Amoxicillin" "2.5 .5" "Not specified"].
Proof.
  apply (dosage_forms (unlines [lit "Amoxicillin"; lit "2.5 mg"])).
  vm_compute. reflexivity.
Defined.

(** X13.  No field of a record the parser returns holds a line feed: in
    the report each record takes exactly four lines. *)
Theorem fields_are_single_lines (t : text) (recs : list MedicineRecord) :
  parse_medicine_details t = Ok recs -> Forall single_line recs.
Proof.
  unfold parse_medicine_details.
  destruct (loop (None, []) (Py.split nl t)) as [[cur meds]|e] eqn:L; cbn [bind snd];
    [|discriminate].
  destruct (loop_refines _ None [] cur meds I L) as (new & E & F). simpl in E. subst meds.
  assert (G : Forall single_line new).
  { eapply Forall2_left; [|exact F].
    intros r [n l] Hp ((Hn & d & f & Ed & Ef & Hd & Hf) & _). cbn [fst snd] in *.
    apply assemble_origin in Hp as [[Hs | Hn'] _]; [discriminate|].
    apply in_map_iff in Hn' as (raw & K & Hraw).
    pose proof (split_parts nl t) as P. rewrite Forall_forall in P.
    destruct (P raw Hraw) as [_ Hnl].
    repeat split.
    - rewrite Hn, (classify_name_value raw n K). intros H.
      apply derive_name_incl, strip_incl in H. contradiction.
    - apply extract_dosage_form in Ed. rewrite Hd, (strip_dosage_form d Ed).
      now apply dosage_form_no_nl.
    - rewrite Hf. intros H. apply strip_incl in H. revert H.
      apply extract_frequency_value in Ef as [-> | [Hk | (pre & a & b & c & T & ->)]].
      + now apply literal_no_nl.
      + pose proof keywords_no_nl as Kn. rewrite Forall_forall in Kn. now apply Kn.
      + destruct T as (w1 & w2 & w3 & w4 & post & _ & Da & _ & Db & _ & Dc & _).
        now apply triplet_text_no_nl. }
  destruct new as [|r new]; [|intros H; injection H as <-; exact G].
  destruct (Py.strip t); intros H; injection H as <-; repeat constructor;
    now apply literal_no_nl.
Qed.

(** The text "Paracetamol 500 mg", line feed, "1-0-1". *)
Lemma fields_are_single_lines_witness :
  Forall single_line [mkRecord "Paracetamol" "1" "Morning: 1, Afternoon: 0, Night: 1"].
Proof.
  apply (fields_are_single_lines (unlines [lit "Paracetamol 500 mg"; lit "1-0-1"])).
  vm_compute. reflexivity.
Defined.

(** X14.  The report can be read back line by line: for records whose
    fields hold no line feed, its lines are a title, a rule, then for each
    record, in order, its name, dosage and frequency line and a rule, and
    the empty line after the last line feed; so two such lists of records
    with the same report are the same list. *)
Theorem report_determines_records (meds : list MedicineRecord) :
  Forall single_line meds ->
  Py.split nl (medicine_content meds) =
    [lit "Medicine Details:"; repeat "="%char 30] ++ flat_map report_lines meds ++ [[]] /\
  (forall meds', Forall single_line meds' ->
                 medicine_content meds' = medicine_content meds -> meds' = meds).
Proof.
  intros F. split; [now apply medicine_content_lines|].
  intros meds' F' E. apply (f_equal (Py.split nl)) in E.
  rewrite (medicine_content_lines meds F), (medicine_content_lines meds' F') in E.
  cbn [app] in E. injection E as E. apply app_inv_tail in E. now apply flat_report_inj.
Qed.

(** The report of one record. *)
Lemma report_determines_records_witness :
  Py.split nl (medicine_content [mkRecord "Paracetamol" "1" "Not specified"]) =
    [lit "Medicine Details:"; repeat "="%char 30] ++
    flat_map report_lines [mkRecord "Paracetamol" "1" "Not specified"] ++ [[]] /\
  (forall meds', Forall single_line meds' ->
                 medicine_content meds' =
                 medicine_content [mkRecord "Paracetamol" "1" "Not specified"] ->
                 meds' = [mkRecord "Paracetamol" "1" "Not specified"]).
Proof.
  apply (report_determines_records [mkRecord "Paracetamol" "1" "Not specified"]).
  repeat constructor; now apply literal_no_nl.
Defined.

(** X15.  The report is not input for the parser: whatever the records
    (with fields that hold no line feed), no line of their report is a
    name line, so parsing the report gives no record of it back: when it
    returns, it returns the sentinel alone. *)
Theorem report_is_not_parsed_back (meds : list MedicineRecord) (out : list MedicineRecord) :
  Forall single_line meds ->
  parse_medicine_details (medicine_content meds) = Ok out ->
  out = [sentinel].
Proof.
  intros F. unfold parse_medicine_details.
  destruct (loop (None, []) (Py.split nl (medicine_content meds))) as [[cur recs]|e] eqn:L;
    cbn [bind snd]; [|discriminate].
  destruct (loop_refines _ None [] cur recs I L) as (new & E & F2). simpl in E. subst recs.
  rewrite (medicine_content_lines meds F) in F2. cbn [asm_of] in F2.
  rewrite assemble_no_names in F2.
  - inversion F2; subst.
    destruct (Py.strip (medicine_content meds)) as [|c s] eqn:S;
      [|intros H; now injection H as <-].
    intros _. exfalso. revert S. apply strip_not_nil with (c := "M"%char); [|reflexivity].
    unfold medicine_content. rewrite fold_add_record. now left.
  - apply Forall_forall. intros k Hk. apply in_map_iff in Hk as (raw & <- & Hraw).
    cbn [app] in Hraw. destruct Hraw as [<- | [<- | Hraw]].
    + intros n. vm_compute. discriminate.
    + intros n. vm_compute. discriminate.
    + apply in_app_or in Hraw as [Hraw | [<- | []]].
      * apply in_flat_map in Hraw as (med & _ & Hraw).
        pose proof (report_lines_not_names med) as N. rewrite Forall_forall in N.
        now apply N.
      * intros n. vm_compute. discriminate.
Qed.

(** The report of the record of "Paracetamol 500 mg", "1-0-1". *)
Lemma report_is_not_parsed_back_witness :
  parse_medicine_details
    (medicine_content [mkRecord "Paracetamol" "1" "Morning: 1, Afternoon: 0, Night: 1"]) =
  Ok [sentinel] /\ [sentinel] = [sentinel].
Proof.
  split; [vm_compute; reflexivity|].
  apply (report_is_not_parsed_back
           [mkRecord "Paracetamol" "1" "Morning: 1, Afternoon: 0, Night: 1"] [sentinel]).
  - repeat constructor; now apply literal_no_nl.
  - vm_compute. reflexivity.
Defined.

(** X16.  A line with a run of ten or more digits that ends at a word
    boundary is discarded as a phone number, whatever else the line
    holds. *)
Theorem ten_digits_are_a_phone_number (pre ds post : text) :
  digits ds -> 10 <= length ds -> ends_word post ->
  is_likely_phone_number (pre ++ ds ++ post) = true.
Proof.
  intros D L E. apply phone_iff.
  set (k := length ds - 10).
  assert (Eds : ds = firstn k ds ++ firstn 3 (skipn k ds) ++
                     firstn 3 (skipn 3 (skipn k ds)) ++ skipn 3 (skipn 3 (skipn k ds))).
  { now rewrite !firstn_skipn. }
  assert (Dall : forall a b : text, digits (a ++ b) -> digits a /\ digits b).
  { unfold digits. intros a b H. rewrite forallb_app in H. now apply andb_prop in H. }
  rewrite Eds in D. apply Dall in D as [_ D]. apply Dall in D as [D1 D]. apply Dall in D as [D2 D3].
  exists (pre ++ firstn k ds),
         (firstn 3 (skipn k ds) ++ firstn 3 (skipn 3 (skipn k ds)) ++
          skipn 3 (skipn 3 (skipn k ds))), post.
  split; [rewrite Eds at 1; now rewrite <- !app_assoc|]. split; [|exact E].
  apply local_number_phone.
  exists [], (firstn 3 (skipn k ds)), [], [], (firstn 3 (skipn 3 (skipn k ds))), [],
         (skipn 3 (skipn 3 (skipn k ds))).
  repeat split; try (now left); try assumption;
    rewrite ?length_firstn, ?length_skipn; subst k; lia.
Qed.

(** An order number of twelve digits in a sentence. *)
Lemma ten_digits_are_a_phone_number_witness :
  is_likely_phone_number (lit "Ref " ++ lit "202611030042" ++ lit " see notes") = true.
Proof.
  apply (ten_digits_are_a_phone_number "Ref " "202611030042" " see notes");
    [reflexivity | vm_compute; lia | reflexivity].
Defined.
